(** * smart-run-coach: credentials, OAuth hand-shake and weekly training statistics

    A shallow embedding of [training_analysis.py] and [strava_api.py].

    - [Credentials]: [get_credentials], the key/value file reader.
    - [Calendar]: the proleptic Gregorian calendar arithmetic behind
      [Timestamp.year] and [Timestamp.isocalendar().week].
    - [Training]: [analyze_training_data], the paginated fetch loop, the
      date-range filter and the weekly [groupby] aggregation.
    - [OAuth]: [OAuthHandler.do_GET] and [get_access_token].

    Conventions.  A JSON field of an activity is either absent or holds a
    well-typed value, so a field is an [option].  Floating-point numbers are
    idealised as rationals ([Q]); the only IEEE behaviour kept is the result
    of a division by zero ([fdiv]).  Text is a [string] of code points below
    256. *)

From Stdlib Require Import ZArith QArith Lia List Sorted Ascii String.
From stdpp Require Import base strings gmap list.
Import ListNotations.

(* ===================================================================== *)
(** ** Credential loader ([training_analysis.py], [get_credentials])        *)
(* ===================================================================== *)

Module Credentials.

Local Open Scope string_scope.

(** [str.isspace] restricted to code points below 256. *)
Definition is_space (c : ascii) : bool :=
  let n := nat_of_ascii c in
  ((9 <=? n) && (n <=? 13) || (28 <=? n) && (n <=? 32)
   || (n =? 133) || (n =? 160))%nat.

(** [c in s] for a one-character needle. *)
Fixpoint contains (c : ascii) (s : string) : bool :=
  match s with
  | EmptyString => false
  | String d s' => Ascii.eqb d c || contains c s'
  end.

(** [s.count(c)]. *)
Fixpoint count (c : ascii) (s : string) : nat :=
  match s with
  | EmptyString => 0
  | String d s' => (if Ascii.eqb d c then 1 else 0) + count c s'
  end.

(** [s.lstrip()]. *)
Fixpoint lstrip (s : string) : string :=
  match s with
  | EmptyString => EmptyString
  | String c s' => if is_space c then lstrip s' else s
  end.

(** [s.rstrip()]: a character is dropped when it is white space and
    everything after it has been dropped. *)
Fixpoint rstrip (s : string) : string :=
  match s with
  | EmptyString => EmptyString
  | String c s' =>
      match rstrip s' with
      | EmptyString => if is_space c then EmptyString else String c EmptyString
      | r => String c r
      end
  end.

(** [s.strip()]. *)
Definition strip (s : string) : string := rstrip (lstrip s).

(** [s.split(sep)] for a one-character separator: the pieces between the
    separators, [count sep s + 1] of them. *)
Fixpoint split (sep : ascii) (s : string) : list string :=
  match s with
  | EmptyString => [EmptyString]
  | String c s' =>
      if Ascii.eqb c sep then EmptyString :: split sep s'
      else match split sep s' with
           | piece :: pieces => String c piece :: pieces
           | [] => [String c EmptyString]
           end
  end.

(** What [open(file_path, 'r')] followed by [f.readlines()] gives. *)
Inductive file :=
| FileNotFound                      (* FileNotFoundError *)
| ReadFailure                       (* any other exception of open/readlines *)
| FileLines (lines : list string).

(** How a call of [get_credentials] ends. *)
Inductive outcome :=
| Return (client_id client_secret : string)
| Exit (code : Z).

(** One iteration of [for line in lines]; [None] is the [ValueError] of
    the two-way unpacking [key, value = ...]. *)
Definition parse_line (line : string) (credentials : gmap string string)
  : option (gmap string string) :=
  if contains "=" line then
    match split "=" (strip line) with
    | [key; value] => Some (<[strip key := strip value]> credentials)
    | _ => None
    end
  else Some credentials.

Fixpoint parse_lines (lines : list string) (credentials : gmap string string)
  : option (gmap string string) :=
  match lines with
  | [] => Some credentials
  | line :: rest =>
      match parse_line line credentials with
      | Some credentials' => parse_lines rest credentials'
      | None => None
      end
  end.

Definition get_credentials (f : file) : outcome :=
  match f with
  | FileNotFound => Exit 1            (* except FileNotFoundError: exit(1) *)
  | ReadFailure => Exit 1             (* except Exception: exit(1) *)
  | FileLines lines =>
      match parse_lines lines ∅ with
      | None => Exit 1                (* ValueError, except Exception *)
      | Some credentials =>
          match credentials !! "client_id", credentials !! "client_secret" with
          | Some client_id, Some client_secret => Return client_id client_secret
          | _, _ => Exit 1            (* raise ValueError, except Exception *)
          end
      end
  end.

(** A line feed, the end of every line that [readlines] returns. *)
Definition LF : string := String "010"%char EmptyString.

(** The file the error message of the source asks for. *)
Definition sample_file : file :=
  FileLines ["client_id = 153827" +:+ LF;
             "client_secret = e555d7e76a0de078" +:+ LF].

End Credentials.

(* ===================================================================== *)
(** ** Calendar arithmetic ([Timestamp.year], [isocalendar().week])         *)
(* ===================================================================== *)

(** pandas follows the proleptic Gregorian calendar of Python's
    [datetime]; the definitions below are those of [datetime.date]:
    [_is_leap], [_days_before_year], [_days_before_month], [_ymd2ord],
    [_isoweek1monday] and [isocalendar]. *)
Module Calendar.

Local Open Scope Z_scope.

Definition is_leap (year : Z) : bool :=
  (year mod 4 =? 0) && (negb (year mod 100 =? 0) || (year mod 400 =? 0)).

Definition days_before_year (year : Z) : Z :=
  let y := year - 1 in
  y * 365 + y / 4 - y / 100 + y / 400.

(** Days of the year before the first day of [month], in a common year. *)
Definition DAYS_BEFORE_MONTH : list Z :=
  [0; 0; 31; 59; 90; 120; 151; 181; 212; 243; 273; 304; 334].

Definition days_before_month (year month : Z) : Z :=
  nth (Z.to_nat month) DAYS_BEFORE_MONTH 0
  + (if (2 <? month) && is_leap year then 1 else 0).

(** Ordinal of a date, 0001-01-01 being day 1 (a Monday). *)
Definition ymd2ord (year month day : Z) : Z :=
  days_before_year year + days_before_month year month + day.

(** Ordinal of the Monday that starts ISO week 1 of [year]: the week
    holding the year's first Thursday. *)
Definition isoweek1monday (year : Z) : Z :=
  let firstday := ymd2ord year 1 1 in
  let firstweekday := (firstday + 6) mod 7 in
  let week1monday := firstday - firstweekday in
  if 3 <? firstweekday then week1monday + 7 else week1monday.

(** [date(year, month, day).isocalendar()]: ISO year, ISO week, ISO weekday. *)
Definition isocalendar (year month day : Z) : Z * Z * Z :=
  let week1monday := isoweek1monday year in
  let today := ymd2ord year month day in
  let week := (today - week1monday) / 7 in
  let day := (today - week1monday) mod 7 in
  if week <? 0 then
    let year := year - 1 in
    let week1monday := isoweek1monday year in
    (year, (today - week1monday) / 7 + 1, (today - week1monday) mod 7 + 1)
  else if (52 <=? week) && (isoweek1monday (year + 1) <=? today) then
    (year + 1, 1, day + 1)
  else (year, week + 1, day + 1).

(** A UTC time stamp with a resolution of one second. *)
Record Timestamp := mkTimestamp {
  ts_year : Z;
  ts_month : Z;
  ts_day : Z;
  ts_time : Z                   (* seconds since midnight *)
}.

(** [t.dt.year]: the calendar year. *)
Definition year_of (t : Timestamp) : Z := ts_year t.

(** [t.dt.isocalendar().year] and [t.dt.isocalendar().week]. *)
Definition iso_year_of (t : Timestamp) : Z :=
  fst (fst (isocalendar (ts_year t) (ts_month t) (ts_day t))).

Definition iso_week_of (t : Timestamp) : Z :=
  snd (fst (isocalendar (ts_year t) (ts_month t) (ts_day t))).

(** The position of a time stamp on the time line, in seconds counted
    from the midnight before 0001-01-01; time stamps are compared by it.
    For a valid date and a time of day below 86400 it grows with time. *)
Definition ts_ord (t : Timestamp) : Z :=
  ymd2ord (ts_year t) (ts_month t) (ts_day t) * 86400 + ts_time t.

Definition ts_ltb (a b : Timestamp) : bool := ts_ord a <? ts_ord b.
Definition ts_leb (a b : Timestamp) : bool := ts_ord a <=? ts_ord b.

(** A date at midnight, what [pd.to_datetime("YYYY-MM-DD").tz_localize(UTC)]
    gives for the boundaries. *)
Definition midnight (year month day : Z) : Timestamp :=
  mkTimestamp year month day 0.

End Calendar.

(* ===================================================================== *)
(** ** Activity aggregator ([training_analysis.py], [analyze_training_data]) *)
(* ===================================================================== *)

Module Training.

Import Calendar.
Local Open Scope Z_scope.

(** An activity as the API returns it: a JSON object of which the
    aggregator reads five fields. *)
Record Activity := mkActivity {
  start_date : option Timestamp;
  distance : option Q;                   (* metres *)
  moving_time : option Q;                (* seconds *)
  total_elevation_gain : option Q;       (* metres *)
  id : option Z
}.

(** *** The fetch loop *)

(** What [strava_api.get_activities(per_page, page)] does: it returns a
    page, or raises (network failure, undecodable body). *)
Inductive response :=
| Page (activities : list Activity)
| Failure.

Definition api := nat -> nat -> response.     (* per_page, page *)

Definition per_page : nat := 100.

(** The three [break]s of the loop. *)
Inductive stop :=
| EmptyPage              (* if not activities: break *)
| BeforeStart            (* if last_activity_date < start_date: ... break *)
| FetchError.            (* except Exception: break *)

Inductive step :=
| Continue (all_activities : list Activity) (page : nat)
| Break (all_activities : list Activity) (why : stop).

(** ['start_date' in a and pd.to_datetime(a['start_date']) >= start_date] *)
Definition on_or_after (start : Timestamp) (a : Activity) : bool :=
  match start_date a with
  | Some d => ts_leb start d
  | None => false
  end.

(** ['start_date' in a and pd.to_datetime(a['start_date']) <= end_date] *)
Definition on_or_before (end_ : Timestamp) (a : Activity) : bool :=
  match start_date a with
  | Some d => ts_leb d end_
  | None => false
  end.

Definition nonempty {A} (l : list A) : bool :=
  match l with [] => false | _ => true end.

(** One pass through the body of [while True]. *)
Definition loop_body (get_activities : api) (start : option Timestamp)
    (all_activities : list Activity) (page : nat) : step :=
  match get_activities per_page page with
  | Failure => Break all_activities FetchError
  | Page activities =>
      if negb (nonempty activities) then Break all_activities EmptyPage
      else
        match start, last activities with
        | Some start, Some last_activity =>
            match start_date last_activity with
            | Some last_activity_date =>
                if ts_ltb last_activity_date start then
                  let filtered_activities :=
                    List.filter (on_or_after start) activities in
                  Break (if nonempty filtered_activities
                         then all_activities ++ filtered_activities
                         else all_activities) BeforeStart
                else Continue (all_activities ++ activities) (S page)
            | None => Continue (all_activities ++ activities) (S page)
            end
        | _, _ => Continue (all_activities ++ activities) (S page)
        end
  end.

(** What one pass through the loop body did, read off its result: the
    three ways out and the way on, with what each requires of the page
    just fetched and what it leaves in [all_activities]. *)
Definition pass (get_activities : api) (start : option Timestamp)
    (all : list Activity) (page : nat) (s : step) : Prop :=
  match s with
  | Break all' FetchError =>
      get_activities per_page page = Failure /\ all' = all
  | Break all' EmptyPage =>
      get_activities per_page page = Page [] /\ all' = all
  | Break all' BeforeStart =>
      exists activities boundary last_activity d,
        get_activities per_page page = Page activities
        /\ activities <> []
        /\ start = Some boundary
        /\ last activities = Some last_activity
        /\ start_date last_activity = Some d
        /\ (ts_ord d < ts_ord boundary)%Z
        /\ all' = all ++ List.filter (on_or_after boundary) activities
  | Continue all' page' =>
      exists activities,
        get_activities per_page page = Page activities
        /\ activities <> []
        /\ (forall boundary last_activity d,
              start = Some boundary -> last activities = Some last_activity ->
              start_date last_activity = Some d ->
              (ts_ord boundary <= ts_ord d)%Z)
        /\ all' = all ++ activities /\ page' = S page
  end.

(** Where the loop stood when it left. *)
Record fetched := mkFetched {
  all_activities : list Activity;
  last_page : nat;            (* the page of the last request *)
  why : stop
}.

(** [while True]: [None] when [fuel] passes did not reach a [break]. *)
Fixpoint fetch_loop (fuel : nat) (get_activities : api)
    (start : option Timestamp) (all : list Activity) (page : nat)
  : option fetched :=
  match fuel with
  | O => None
  | S fuel' =>
      match loop_body get_activities start all page with
      | Break all' why => Some (mkFetched all' page why)
      | Continue all' page' => fetch_loop fuel' get_activities start all' page'
      end
  end.



(** A server that holds a finite feed and serves it in consecutive pages
    (page 1 first), as the provider does. *)
Definition paged (feed : list Activity) : api :=
  fun per_page page =>
    Page (firstn per_page (skipn ((page - 1) * per_page) feed)).

(** [ceil(n / d)] *)
Definition ceil_div (n d : nat) : nat := ((n + d - 1) / d)%nat.

(** *** The data frame *)

Inductive column :=
| col_start_date | col_distance | col_moving_time
| col_total_elevation_gain | col_id.

Definition has_field (c : column) (a : Activity) : bool :=
  match c with
  | col_start_date => bool_decide (is_Some (start_date a))
  | col_distance => bool_decide (is_Some (distance a))
  | col_moving_time => bool_decide (is_Some (moving_time a))
  | col_total_elevation_gain => bool_decide (is_Some (total_elevation_gain a))
  | col_id => bool_decide (is_Some (id a))
  end.

(** [col in df.columns]: [pd.DataFrame(records)] has the union of the
    records' keys as its columns. *)
Definition in_columns (df : list Activity) (c : column) : bool :=
  existsb (has_field c) df.

Definition required_columns : list column :=
  [col_start_date; col_distance; col_moving_time; col_total_elevation_gain].

Definition missing_columns (df : list Activity) : list column :=
  List.filter (fun c => negb (in_columns df c)) required_columns.

(** The two row filters; a row without a time stamp (NaT) passes neither. *)
Definition filter_range (start end_ : option Timestamp) (df : list Activity)
  : list Activity :=
  let df := match start with
            | Some start => List.filter (on_or_after start) df
            | None => df
            end in
  match end_ with
  | Some end_ => List.filter (on_or_before end_) df
  | None => df
  end.

(** *** Grouping by (year, week) *)

Definition key := (Z * Z)%type.

Definition key_eqb (k k' : key) : bool :=
  (fst k =? fst k') && (snd k =? snd k').

Definition key_ltb (k k' : key) : bool :=
  (fst k <? fst k') || ((fst k =? fst k') && (snd k <? snd k')).

(** The grouping key of a row: [df['year']] is [dt.year], [df['week']] is
    [dt.isocalendar().week]; a row without a time stamp has none. *)
Definition key_of (a : Activity) : option key :=
  match start_date a with
  | Some t => Some (year_of t, iso_week_of t)
  | None => None
  end.

(** The key [isocalendar] itself gives: ISO year and ISO week. *)
Definition iso_key_of (a : Activity) : option key :=
  match start_date a with
  | Some t => Some (iso_year_of t, iso_week_of t)
  | None => None
  end.

(** A row joins the group of its key; groups are kept in key order, rows
    in frame order. *)
Fixpoint add_row (k : key) (a : Activity)
    (groups : list (key * list Activity)) : list (key * list Activity) :=
  match groups with
  | [] => [(k, [a])]
  | (k', g) :: rest =>
      if key_eqb k k' then (k', g ++ [a]) :: rest
      else if key_ltb k k' then (k, [a]) :: groups
      else (k', g) :: add_row k a rest
  end.

(** [df.groupby(['year', 'week'])]: rows without a key are dropped. *)
Definition groupby (df : list Activity) : list (key * list Activity) :=
  fold_left (fun groups a =>
               match key_of a with
               | Some k => add_row k a groups
               | None => groups
               end) df [].

(** *** Reading a grouping *)

(** The rows of a frame that carry the key [k], in frame order. *)
Definition has_key (k : key) (a : Activity) : bool :=
  match key_of a with
  | Some k' => key_eqb k' k
  | None => false
  end.

Definition rows_of (k : key) (df : list Activity) : list Activity :=
  List.filter (has_key k) df.


(** The group stored under [k], if there is one. *)
Fixpoint group_of (k : key) (groups : list (key * list Activity))
  : option (list Activity) :=
  match groups with
  | [] => None
  | (k', g) :: rest => if key_eqb k' k then Some g else group_of k rest
  end.

(** Groups are in strictly increasing key order. *)
Definition ordered (groups : list (key * list Activity)) : Prop :=
  StronglySorted (fun x y => key_ltb (fst x) (fst y) = true) groups.

(** *** Aggregation *)

(** The result of a floating-point division. *)
Inductive fval :=
| Finite (q : Q)
| PosInf
| NegInf
| NaN.

(** [x / y] on floats: no exception, a zero divisor gives an infinity or
    NaN. *)
Definition fdiv (x y : Q) : fval :=
  if Qeq_bool y 0 then
    if Qeq_bool x 0 then NaN
    else if Qle_bool 0 x then PosInf else NegInf
  else Finite (x / y).

(** ['sum']: missing values are skipped. *)
Definition sum_of (field : Activity -> option Q) (g : list Activity) : Q :=
  fold_right Qplus 0%Q (omap field g).

(** ['count']: the number of values that are not missing. *)
Definition count_of {A} (field : Activity -> option A) (g : list Activity)
  : nat :=
  length (omap field g).

Record WeeklyStat := mkWeeklyStat {
  year : Z;
  week : Z;
  total_distance_km : Q;
  total_time_minutes : Q;
  total_elevation_meters : Q;
  number_of_activities : nat;
  total_time_hours : Q;
  average_speed_kmh : fval
}.

(** One row of [weekly_stats]: the [agg] of a group, the renaming of the
    columns and the three derived columns. *)
Definition weekly_stat (kg : key * list Activity) : WeeklyStat :=
  let '(k, g) := kg in
  let total_distance_km := sum_of distance g in
  let total_time_minutes := sum_of moving_time g in
  let total_elevation_meters := sum_of total_elevation_gain g in
  let number_of_activities := count_of id g in
  let total_distance_km := (total_distance_km / 1000)%Q in
  let total_time_hours := (total_time_minutes / 60)%Q in
  mkWeeklyStat (fst k) (snd k) total_distance_km total_time_minutes
    total_elevation_meters number_of_activities total_time_hours
    (fdiv total_distance_km total_time_hours).

(** The four ways [analyze_training_data] returns [(None, None)], and the
    table it returns otherwise (the summary dictionary is a function of
    the table and is left out; the three output files are taken to be
    writable). *)
Inductive result :=
| NoActivities                          (* if not all_activities *)
| MissingColumns (cols : list column)   (* if missing_columns *)
| EmptyAfterFilter                      (* if len(df) == 0 *)
| ProcessingError                       (* except Exception *)
| Analysed (weekly_stats : list WeeklyStat).

(** The rows that reach [groupby]. *)
Definition retained (start end_ : option Timestamp)
    (all_activities : list Activity) : list Activity :=
  filter_range start end_ all_activities.

(** Everything after the fetch loop. *)
Definition process (start end_ : option Timestamp)
    (all_activities : list Activity) : result :=
  if negb (nonempty all_activities) then NoActivities
  else
    let df := all_activities in
    if nonempty (missing_columns df) then MissingColumns (missing_columns df)
    else
      let rows := filter_range start end_ df in
      if (length rows =? 0)%nat then EmptyAfterFilter
      else if negb (in_columns df col_id) then ProcessingError  (* KeyError *)
      else Analysed (map weekly_stat (groupby rows)).

Definition analyze_training_data (fuel : nat) (strava_api : api)
    (start end_ : option Timestamp) : option result :=
  match fetch_loop fuel strava_api start [] 1 with
  | Some f => Some (process start end_ (all_activities f))
  | None => None
  end.

(** *** Sample feeds *)

Definition run (i : Z) (y m d : Z) (metres seconds : Z) : Activity :=
  mkActivity (Some (mkTimestamp y m d 36000)) (Some (inject_Z metres))
    (Some (inject_Z seconds)) (Some 0%Q) (Some i).

(** Three activities of ISO week 2024-W10. *)
Definition week10_feed : list Activity :=
  [run 3 2024 3 6 0 600; run 2 2024 3 5 10000 3600; run 1 2024 3 4 5000 1800].

(** 30 December 2024 and 1 January 2024: Mondays of two ISO years. *)
Definition boundary_feed : list Activity :=
  [run 2 2024 12 30 8000 2400; run 1 2024 1 1 5000 1800].

(** 1 January 2024 and 31 December 2023. *)
Definition new_year_feed : list Activity :=
  [run 2 2024 1 1 5000 1800; run 1 2023 12 31 8000 2400].

(** 1 January 2025 and 31 December 2024: Wednesday and Tuesday of one
    ISO week, 2025-W01. *)
Definition split_week_feed : list Activity :=
  [run 2 2025 1 1 5000 1800; run 1 2024 12 31 8000 2400].

(** 150 activities of 1 January 2024: two pages. *)
Definition old_feed : list Activity :=
  repeat (run 1 2024 1 1 5000 1800) 150.

(** A server whose every request fails. *)
Definition failing_api : api := fun _ _ => Failure.

(** Two activities of week 2024-W10, the older one without an [id]. *)
Definition partial_id_feed : list Activity :=
  [run 2 2024 3 5 10000 3600;
   mkActivity (Some (mkTimestamp 2024 3 4 36000)) (Some 5000%Q)
     (Some 1800%Q) (Some 0%Q) None].

(** One activity that took no time, with and without a distance. *)
Definition zero_time_feed : list Activity := [run 1 2024 3 4 5000 0].
Definition zero_feed : list Activity := [run 1 2024 3 4 0 0].

(** One activity that has a start date and nothing else. *)
Definition bare_feed : list Activity :=
  [mkActivity (Some (mkTimestamp 2024 3 4 36000)) None None None None].

(** One activity with the four validated fields and no [id]. *)
Definition no_id_feed : list Activity :=
  [mkActivity (Some (mkTimestamp 2024 3 4 36000)) (Some 5000%Q)
     (Some 1800%Q) (Some 0%Q) None].

End Training.

(* ===================================================================== *)
(** ** OAuth authenticator ([strava_api.py], [get_access_token])            *)
(* ===================================================================== *)

Module OAuth.

Local Open Scope string_scope.

(** An inbound HTTP request as the handler sees it: its method and
    [urllib.parse.parse_qs(urllib.parse.urlparse(self.path).query)], the
    mapping from parameter names to their values. *)
Inductive method := GET | OTHER.

Record request := mkRequest {
  req_method : method;
  req_params : gmap string (list string)
}.

(** [parse_qs] drops blank values and lists each name with at least one
    value. *)
Definition parsed (params : gmap string (list string)) : Prop :=
  forall name values, params !! name = Some values ->
    exists value rest, values = value :: rest /\ value <> "".

(** The parsed JSON body of the token endpoint's answer. *)
Definition payload := gmap string string.

(** What happens on the wire, in order. *)
Inductive event :=
| OpenBrowser (url : string)
| Respond (status : Z) (body : string)
| Post (url : string) (data : list (string * string)).

(** [OAuthHandler.do_GET]: the new [server.auth_code] and the answer. *)
Definition do_GET (params : gmap string (list string))
    (auth_code : option string) : option string * list event :=
  match params !! "code" with
  | Some (code :: _) =>                   (* code = params['code'][0] *)
      (Some code,
       [Respond 200 "Authentication successful! You can close this window."])
  | Some [] =>                            (* IndexError, logged by the server *)
      (auth_code, [Respond 200 ""])
  | None =>
      (auth_code, [Respond 200 "Authentication failed. Please try again."])
  end.

(** [server.handle_request()]: takes one request from the listener's
    queue and dispatches it; only [do_GET] is defined, any other method is
    answered 501.  With nothing in the queue the call blocks for ever
    ([None]). *)
Definition handle_request (incoming : list request)
    (auth_code : option string)
  : option (option string * list request * list event) :=
  match incoming with
  | [] => None
  | r :: rest =>
      match req_method r with
      | GET => let '(auth_code', evs) := do_GET (req_params r) auth_code in
               Some (auth_code', rest, evs)
      | OTHER => Some (auth_code, rest, [Respond 501 "Unsupported method"])
      end
  end.

(** How a call that came back ended. *)
Inductive outcome :=
| Returned (token_data : option payload)
| Raised.                            (* requests.post or .json() raised *)

Definition token_url : string := "https://www.strava.com/oauth/token".

Definition auth_url (client_id : string) : string :=
  "http://www.strava.com/oauth/authorize?client_id=" +:+ client_id +:+
  "&response_type=code&redirect_uri=http://localhost:8000&approval_prompt=force&scope=activity:read_all".

(** The form of the token request. *)
Definition token_request (client_id client_secret code : string)
  : list (string * string) :=
  [("client_id", client_id); ("client_secret", client_secret);
   ("code", code); ("grant_type", "authorization_code")].

(** Truth value of [server.auth_code]: [None] and the empty string are
    false. *)
Definition truthy (auth_code : option string) : bool :=
  match auth_code with
  | Some code => negb (String.eqb code "")
  | None => false
  end.

(** [get_access_token]: [token_endpoint] is the remote end of
    [requests.post(token_url, data=data).json()], [incoming] the requests
    that reach the listener.  The result is the outcome, the requests left
    unserved and the events; [None] when the listener waits for ever. *)
Definition get_access_token (client_id client_secret : string)
    (token_endpoint : list (string * string) -> option payload)
    (incoming : list request)
  : option (outcome * list request * list event) :=
  let auth_code : option string := None in
  let opened := [OpenBrowser (auth_url client_id)] in
  match handle_request incoming auth_code with
  | None => None
  | Some (auth_code, unserved, evs) =>
      if truthy auth_code then
        let data :=
          token_request client_id client_secret (default "" auth_code) in
        match token_endpoint data with
        | Some token_data =>
            Some (Returned (Some token_data), unserved,
                  (opened ++ evs ++ [Post token_url data])%list)
        | None =>
            Some (Raised, unserved,
                  (opened ++ evs ++ [Post token_url data])%list)
        end
      else Some (Returned None, unserved, (opened ++ evs)%list)
  end.

(** The token requests of a trace. *)
Definition posts (evs : list event)
  : list (string * list (string * string)) :=
  omap (fun e => match e with
                 | Post url data => Some (url, data)
                 | _ => None
                 end) evs.

(** A callback that carries a code, and one that carries an error. *)
Definition callback_with_code : request :=
  mkRequest GET {["code" := ["4f1c9a"]]}.

Definition callback_denied : request :=
  mkRequest GET {["error" := ["access_denied"]]}.

End OAuth.

(* ===================================================================== *)
(** ** API client ([strava_api.py], [StravaAPI])                            *)
(* ===================================================================== *)

Module Client.

Local Open Scope string_scope.

Record StravaAPI := mkStravaAPI {
  access_token : option string;
  base_url : string;
  headers : gmap string string
}.

(** [StravaAPI.__init__]: the header is set when [access_token] is true,
    that is neither [None] nor empty. *)
Definition init (access_token : option string) : StravaAPI :=
  mkStravaAPI access_token "https://www.strava.com/api/v3"
    (match access_token with
     | Some token =>
         if String.eqb token "" then ∅
         else {["Authorization" := "Bearer " +:+ token]}
     | None => ∅
     end).

(** What [requests.get(endpoint, headers=..., params=...)] is given. *)
Record get := mkGet {
  endpoint : string;
  get_headers : gmap string string;
  params : list (string * nat)
}.

Definition get_athlete (self : StravaAPI) : get :=
  mkGet (base_url self +:+ "/athlete") (headers self) [].

Definition get_activities (self : StravaAPI) (per_page page : nat) : get :=
  mkGet (base_url self +:+ "/athlete/activities") (headers self)
    [("per_page", per_page); ("page", page)].

(** [activity_id] as the f-string prints it. *)
Definition get_activity (self : StravaAPI) (activity_id : string) : get :=
  mkGet (base_url self +:+ "/activities/" +:+ activity_id) (headers self) [].

(** The remote end of [requests.get(...).json()] for the activity list,
    and the [strava_api] object [analyze_training_data] is handed: its
    [get_activities] sends the request built above. *)
Definition as_api (remote : get -> Training.response) (self : StravaAPI)
  : Training.api :=
  fun per_page page => remote (get_activities self per_page page).

(** [s.startswith(p)] *)
Fixpoint startswith (p s : string) : bool :=
  match p, s with
  | EmptyString, _ => true
  | String a p', String b s' => Ascii.eqb a b && startswith p' s'
  | String _ _, EmptyString => false
  end.

End Client.

(* ===================================================================== *)
(** ** Console input ([training_analysis.py], [get_date_input])             *)
(* ===================================================================== *)

Module Console.

(** How a call of [get_date_input] ends: it returns the text typed, or
    [input] raises [EOFError] (not a [ValueError], so it is not caught)
    because nothing is left to read. *)
Inductive outcome :=
| Returned (date_str : string) (unread : list string) (complaints : nat)
| EndOfInput (complaints : nat).

(** [get_date_input]: [typed] are the lines [input(prompt)] will return,
    [parses s] tells whether [datetime.strptime(s, '%Y-%m-%d')] returns
    (it raises [ValueError] otherwise); each rejected line prints one
    "Invalid date format" message. *)
Fixpoint get_date_input (parses : string -> bool) (typed : list string)
  : outcome :=
  match typed with
  | [] => EndOfInput 0
  | date_str :: rest =>
      if parses date_str then Returned date_str rest 0
      else match get_date_input parses rest with
           | Returned d unread n => Returned d unread (S n)
           | EndOfInput n => EndOfInput (S n)
           end
  end.

End Console.

(* ===================================================================== *)
(** ** The script ([training_analysis.py], [__main__])                      *)
(* ===================================================================== *)

Module Script.

Import Calendar.
Local Open Scope string_scope.

(** The date range of the script. *)
Definition start_date : Timestamp := midnight 2024 9 1.
Definition end_date : Timestamp := midnight 2025 4 21.

(** How the script ends. *)
Inductive ending :=
| Exited (code : Z)                     (* get_credentials: exit(1) *)
| Traceback                             (* get_access_token raised *)
| NoToken                               (* "Failed to get access token..." *)
| NoData (why : Training.result)        (* "No data was analyzed..." *)
| Report (weekly_stats : list Training.WeeklyStat).

(** [token_data and 'access_token' in token_data] *)
Definition usable (token_data : option OAuth.payload) : option string :=
  match token_data with
  | Some token_data => token_data !! "access_token"
  | None => None
  end.

(** The body of [if __name__ == "__main__"]: the credentials file, the
    token endpoint, the requests that reach the listener and the remote
    activity list are the world it runs in; the result is how it ends and
    what the authenticator did on the wire.  [None]: the listener waits for
    ever, or the fetch loop needs more than [fuel] passes. *)
Definition main (fuel : nat) (f : Credentials.file)
    (token_endpoint : list (string * string) -> option OAuth.payload)
    (incoming : list OAuth.request)
    (remote : Client.get -> Training.response)
  : option (ending * list OAuth.event) :=
  match Credentials.get_credentials f with
  | Credentials.Exit code => Some (Exited code, [])
  | Credentials.Return client_id client_secret =>
      match OAuth.get_access_token client_id client_secret token_endpoint
              incoming with
      | None => None
      | Some (OAuth.Raised, _, evs) => Some (Traceback, evs)
      | Some (OAuth.Returned token_data, _, evs) =>
          match usable token_data with
          | None => Some (NoToken, evs)
          | Some token =>
              let strava := Client.init (Some token) in
              match Training.analyze_training_data fuel
                      (Client.as_api remote strava)
                      (Some start_date) (Some end_date) with
              | None => None
              | Some (Training.Analysed weekly_stats) =>
                  Some (Report weekly_stats, evs)
              | Some why => Some (NoData why, evs)
              end
          end
      end
  end.

(** A world for the script: two activities of 5 and 6 October 2024 on
    page 1 and nothing after, a token endpoint that grants a token. *)
Definition autumn_feed : list Training.Activity :=
  [Training.run 2 2024 10 6 10000 3600; Training.run 1 2024 10 5 5000 1800].

Definition asked_page (r : Client.get) : nat :=
  match Client.params r with
  | [_; (_, page)] => page
  | _ => 0
  end.

Definition sample_remote (r : Client.get) : Training.response :=
  if (asked_page r =? 1)%nat then Training.Page autumn_feed
  else Training.Page [].

Definition failing_api_remote (r : Client.get) : Training.response :=
  Training.Failure.

Definition granting_endpoint (data : list (string * string))
  : option OAuth.payload :=
  Some {["access_token" := "a1b2"]}.

End Script.

(* ===================================================================== *)
(** ** Notions used to state properties                                     *)
(* ===================================================================== *)

Module Notions.

Import Calendar Training.
Local Open Scope Z_scope.

(** Days of each month in a common year, and [_days_in_month]. *)
Definition DAYS_IN_MONTH : list Z :=
  [0; 31; 28; 31; 30; 31; 30; 31; 31; 30; 31; 30; 31].

Definition days_in_month (year month : Z) : Z :=
  if (month =? 2) && is_leap year then 29
  else nth (Z.to_nat month) DAYS_IN_MONTH 0.

(** The day a leap year has more. *)
Definition leap_day (year : Z) : Z := if is_leap year then 1 else 0.

(** A date of the calendar. *)
Definition valid_date (year month day : Z) : Prop :=
  1 <= month <= 12 /\ 1 <= day <= days_in_month year month.

Definition valid_timestamp (t : Timestamp) : Prop :=
  valid_date (ts_year t) (ts_month t) (ts_day t) /\ 0 <= ts_time t < 86400.

(** The number of the Monday-to-Sunday week a time stamp lies in, weeks
    being counted along the time line (day 1 is a Monday). *)
Definition week_index (t : Timestamp) : Z :=
  (ymd2ord (ts_year t) (ts_month t) (ts_day t) + 6) / 7.

(** [a] is not older than [b], both carrying a start date. *)
Definition not_older (a b : Activity) : Prop :=
  exists ta tb, start_date a = Some ta /\ start_date b = Some tb
                /\ ts_ord tb <= ts_ord ta.

(** A feed in reverse chronological order, newest first. *)
Definition newest_first (feed : list Activity) : Prop :=
  StronglySorted not_older feed.

(** The sum of a list of rationals. *)
Definition Qsum (l : list Q) : Q := fold_right Qplus 0%Q l.

(** Rows that carry a start date. *)
Definition dated (a : Activity) : bool :=
  bool_decide (is_Some (start_date a)).

(** The rows of a table are in increasing (year, week) order. *)
Definition by_week (b b' : WeeklyStat) : Prop :=
  key_ltb (year b, week b) (year b', week b') = true.

(** A server that serves the first [k] pages of a feed and fails on every
    later request. *)
Definition cut_off (k : nat) (feed : list Activity) : api :=
  fun per_page page =>
    if (page <=? k)%nat then paged feed per_page page else Failure.

(** Two servers answer the requests for pages [first .. last] alike. *)
Definition same_pages (a b : api) (first last : nat) : Prop :=
  forall page, (first <= page <= last)%nat ->
               a per_page page = b per_page page.

(** Every value of a credentials mapping is stripped and free of ['=']. *)
Definition tidy (m : gmap string string) : Prop :=
  forall key value, m !! key = Some value ->
    Credentials.strip value = value
    /\ Credentials.contains "=" value = false.

End Notions.

(* ===================================================================== *)
(** * Properties                                                            *)
(* ===================================================================== *)

(** ** The credential loader *)

Section CredentialFacts.

Import Credentials.
Local Open Scope string_scope.

Lemma split_length (sep : ascii) (s : string) :
  length (split sep s) = S (count sep s).
Proof.
  induction s as [|c s IH]; simpl; [reflexivity|].
  destruct (Ascii.eqb c sep); simpl.
  - now rewrite IH.
  - destruct (split sep s) as [|p ps]; simpl in *; [discriminate | exact IH].
Qed.

Lemma contains_count (c : ascii) (s : string) :
  contains c s = true <-> (1 <= count c s)%nat.
Proof.
  induction s as [|d s IH]; simpl.
  - split; [discriminate | lia].
  - destruct (Ascii.eqb d c); simpl; [split; [lia | reflexivity] | exact IH].
Qed.

Lemma contains_false_count (c : ascii) (s : string) :
  contains c s = false <-> count c s = 0%nat.
Proof.
  pose proof (contains_count c s) as H.
  destruct (contains c s); split; intros E; try reflexivity; try discriminate.
  - assert (1 <= count c s)%nat by now apply H. lia.
  - destruct (count c s); [reflexivity|].
    assert (false = true) by (apply H; lia). discriminate.
Qed.

Lemma count_app (c : ascii) (s t : string) :
  count c (s +:+ t) = (count c s + count c t)%nat.
Proof. induction s as [|d s IH]; simpl; [reflexivity | rewrite IH; lia]. Qed.

(** Stripping white space removes no character that is not white space. *)
Lemma count_lstrip (c : ascii) (s : string) :
  is_space c = false -> count c (lstrip s) = count c s.
Proof.
  intros Hc. induction s as [|d s IH]; simpl; [reflexivity|].
  destruct (is_space d) eqn:Hd; [|reflexivity].
  destruct (Ascii.eqb_spec d c) as [->|_]; [congruence | exact IH].
Qed.

Lemma count_rstrip (c : ascii) (s : string) :
  is_space c = false -> count c (rstrip s) = count c s.
Proof.
  intros Hc. induction s as [|d s IH]; simpl; [reflexivity|].
  destruct (rstrip s) as [|e r] eqn:Hr.
  - simpl in IH. rewrite <- IH.
    destruct (is_space d) eqn:Hd; simpl.
    + destruct (Ascii.eqb_spec d c) as [->|_]; [congruence | reflexivity].
    + lia.
  - simpl in *. now rewrite IH.
Qed.

Lemma count_strip (c : ascii) (s : string) :
  is_space c = false -> count c (strip s) = count c s.
Proof.
  intros Hc. unfold strip. now rewrite count_rstrip, count_lstrip.
Qed.

(** The unpacking [key, value = pieces] succeeds on two pieces only. *)
Lemma parse_line_some (line : string) (m m' : gmap string string) :
  parse_line line m = Some m' ->
  contains "=" line = true ->
  count "=" line = 1%nat /\
  exists key value, split "=" (strip line) = [key; value]
                    /\ m' = <[strip key := strip value]> m.
Proof.
  unfold parse_line. intros H Hc. rewrite Hc in H.
  pose proof (split_length "=" (strip line)) as Hlen.
  rewrite count_strip in Hlen by reflexivity.
  destruct (split "=" (strip line)) as [|k [|v [|w ws]]]; try discriminate.
  simpl in Hlen. injection H as <-. split; [lia | eauto].
Qed.

Lemma parse_line_two_signs (line : string) (m : gmap string string) :
  (2 <= count "=" line)%nat -> parse_line line m = None.
Proof.
  intros H. unfold parse_line.
  assert (Hc : contains "=" line = true) by (apply contains_count; lia).
  rewrite Hc.
  pose proof (split_length "=" (strip line)) as Hlen.
  rewrite count_strip in Hlen by reflexivity.
  destruct (split "=" (strip line)) as [|k [|v [|w ws]]]; simpl in Hlen;
    try reflexivity; lia.
Qed.

Lemma parse_line_skip (line : string) (m : gmap string string) :
  contains "=" line = false -> parse_line line m = Some m.
Proof. intros H. unfold parse_line. now rewrite H. Qed.

Lemma parse_lines_some (lines : list string) :
  forall m m', parse_lines lines m = Some m' ->
  Forall (fun line => contains "=" line = true ->
            count "=" line = 1%nat /\
            exists key value, split "=" (strip line) = [key; value]) lines.
Proof.
  induction lines as [|line lines IH]; intros m m' H; simpl in H.
  - constructor.
  - destruct (parse_line line m) as [m1|] eqn:H1; [|discriminate].
    constructor; [|eapply IH; eassumption].
    intros Hc. destruct (parse_line_some _ _ _ H1 Hc) as (? & k & v & ? & _).
    eauto.
Qed.

Lemma parse_lines_two_signs (lines : list string) (line : string) :
  In line lines -> (2 <= count "=" line)%nat ->
  forall m, parse_lines lines m = None.
Proof.
  induction lines as [|l lines IH]; intros Hin H2 m; [destruct Hin|].
  simpl. destruct Hin as [->|Hin].
  - now rewrite parse_line_two_signs.
  - destruct (parse_line l m); [now apply IH | reflexivity].
Qed.

Lemma parse_lines_filter (lines : list string) :
  forall m, parse_lines (List.filter (contains "=") lines) m
            = parse_lines lines m.
Proof.
  induction lines as [|l lines IH]; intros m; simpl; [reflexivity|].
  destruct (contains "=" l) eqn:Hc; simpl.
  - destruct (parse_line l m); [apply IH | reflexivity].
  - rewrite (parse_line_skip _ _ Hc). apply IH.
Qed.

(** *** A line [key=value], with any white space around its parts *)

Lemma lstrip_app (a b : string) (c : ascii) :
  is_space c = false ->
  lstrip (a +:+ String c b) = lstrip a +:+ String c b.
Proof.
  intros Hc. induction a as [|d a IH]; simpl.
  - now rewrite Hc.
  - destruct (is_space d); [exact IH | reflexivity].
Qed.

Lemma rstrip_cons (c : ascii) (s : string) :
  is_space c = false -> rstrip (String c s) = String c (rstrip s).
Proof. intros Hc. simpl. destruct (rstrip s); [now rewrite Hc | reflexivity]. Qed.

Lemma rstrip_app (a b : string) (c : ascii) :
  is_space c = false ->
  rstrip (a +:+ String c b) = a +:+ String c (rstrip b).
Proof.
  intros Hc. induction a as [|d a IH].
  - simpl String.app. now apply rstrip_cons.
  - change (String d a +:+ String c b) with (String d (a +:+ String c b)).
    change (rstrip (String d (a +:+ String c b))) with
      (match rstrip (a +:+ String c b) with
       | EmptyString => if is_space d then EmptyString else String d EmptyString
       | r => String d r
       end).
    rewrite IH. destruct a; reflexivity.
Qed.

Lemma split_app (sep : ascii) (a b : string) :
  contains sep a = false ->
  split sep (a +:+ String sep b) = a :: split sep b.
Proof.
  induction a as [|d a IH]; simpl; intros H.
  - now rewrite Ascii.eqb_refl.
  - apply orb_false_iff in H as [Hd Ha]. rewrite Hd, (IH Ha). reflexivity.
Qed.

Lemma split_none (sep : ascii) (s : string) :
  contains sep s = false -> split sep s = [s].
Proof.
  induction s as [|d s IH]; simpl; intros H; [reflexivity|].
  apply orb_false_iff in H as [Hd Hs]. now rewrite Hd, (IH Hs).
Qed.

Lemma contains_lstrip (c : ascii) (s : string) :
  contains c s = false -> contains c (lstrip s) = false.
Proof.
  induction s as [|d s IH]; simpl; intros H; [reflexivity|].
  apply orb_false_iff in H as [Hd Hs].
  destruct (is_space d); [now apply IH | simpl; now rewrite Hd, Hs].
Qed.

Lemma contains_rstrip (c : ascii) (s : string) :
  contains c s = false -> contains c (rstrip s) = false.
Proof.
  induction s as [|d s IH]; simpl; intros H; [reflexivity|].
  apply orb_false_iff in H as [Hd Hs]. specialize (IH Hs).
  destruct (rstrip s) as [|e r].
  - destruct (is_space d); simpl; [reflexivity | now rewrite Hd].
  - simpl in *. now rewrite Hd, IH.
Qed.

Lemma lstrip_idem (s : string) : lstrip (lstrip s) = lstrip s.
Proof.
  induction s as [|d s IH]; simpl; [reflexivity|].
  destruct (is_space d) eqn:Hd; [exact IH | simpl; now rewrite Hd].
Qed.

Lemma rstrip_idem (s : string) : rstrip (rstrip s) = rstrip s.
Proof.
  induction s as [|d s IH]; [reflexivity|].
  simpl rstrip at 2 3. destruct (rstrip s) as [|e r] eqn:Hr.
  - destruct (is_space d) eqn:Hd; [reflexivity | simpl; now rewrite Hd].
  - change (rstrip (String d (String e r))) with
      (match rstrip (String e r) with
       | EmptyString => if is_space d then EmptyString else String d EmptyString
       | r' => String d r'
       end).
    now rewrite IH.
Qed.

Lemma rstrip_empty_lstrip (s : string) :
  rstrip s = EmptyString -> lstrip s = EmptyString.
Proof.
  induction s as [|d s IH]; simpl; [reflexivity|].
  destruct (rstrip s) as [|e r]; [|discriminate].
  destruct (is_space d); [intros _; now apply IH | discriminate].
Qed.

Lemma strip_lstrip (s : string) : strip (lstrip s) = strip s.
Proof. unfold strip. now rewrite lstrip_idem. Qed.

Lemma strip_rstrip (s : string) : strip (rstrip s) = strip s.
Proof.
  unfold strip. induction s as [|d s IH]; [reflexivity|].
  destruct (is_space d) eqn:Hd.
  - simpl rstrip at 2. simpl lstrip at 2. rewrite Hd.
    destruct (rstrip s) as [|e r] eqn:Hr.
    + rewrite (rstrip_empty_lstrip _ Hr). reflexivity.
    + rewrite <- IH. simpl. now rewrite Hd.
  - rewrite (rstrip_cons _ _ Hd). simpl lstrip. rewrite Hd.
    rewrite !(rstrip_cons _ _ Hd). now rewrite rstrip_idem.
Qed.

Lemma parse_line_key_value (key value : string) (m : gmap string string) :
  contains "=" key = false -> contains "=" value = false ->
  parse_line (key +:+ String "=" value) m
  = Some (<[strip key := strip value]> m).
Proof.
  intros Hk Hv. unfold parse_line.
  assert (Hc : contains "=" (key +:+ String "=" value) = true).
  { apply contains_count. rewrite count_app. simpl. lia. }
  rewrite Hc. unfold strip at 1.
  rewrite lstrip_app, rstrip_app by reflexivity.
  rewrite split_app by now apply contains_lstrip.
  rewrite split_none by now apply contains_rstrip.
  now rewrite strip_lstrip, strip_rstrip.
Qed.

(** C7.  [get_credentials] reads each line [key=value] (white space
    around the parts is stripped) into the mapping; it exits with code 1
    when the file does not exist and when [client_id] or [client_secret] is
    not a key of the mapping the lines give; otherwise it returns the pair
    of the two values.  No call ends in any other way. *)
Theorem get_credentials_contract :
  (forall key value m,
      contains "=" key = false -> contains "=" value = false ->
      parse_line (key +:+ String "=" value) m
      = Some (<[strip key := strip value]> m))
  /\ get_credentials FileNotFound = Exit 1
  /\ (forall lines credentials,
        parse_lines lines ∅ = Some credentials ->
        credentials !! "client_id" = None
        \/ credentials !! "client_secret" = None ->
        get_credentials (FileLines lines) = Exit 1)
  /\ (forall lines credentials client_id client_secret,
        parse_lines lines ∅ = Some credentials ->
        credentials !! "client_id" = Some client_id ->
        credentials !! "client_secret" = Some client_secret ->
        get_credentials (FileLines lines) = Return client_id client_secret)
  /\ (forall f, get_credentials f = Exit 1
                \/ exists client_id client_secret,
                     get_credentials f = Return client_id client_secret).
Proof.
  split; [exact parse_line_key_value|].
  split; [reflexivity|].
  split; [|split].
  - intros lines m Hp Hm. simpl. rewrite Hp.
    destruct Hm as [-> | Hs]; [reflexivity|].
    rewrite Hs. now destruct (m !! "client_id").
  - intros lines m i s Hp Hi Hs. simpl. now rewrite Hp, Hi, Hs.
  - intros [| |lines]; simpl; auto.
    destruct (parse_lines lines ∅) as [m|]; auto.
    destruct (m !! "client_id"); auto.
    destruct (m !! "client_secret"); eauto.
Qed.

Lemma get_credentials_contract_witness :
  parse_lines ["client_id = 153827" +:+ LF;
               "client_secret = e555d7e76a0de078" +:+ LF] ∅
  = Some (<["client_secret" := "e555d7e76a0de078"]>
            (<["client_id" := "153827"]> ∅))
  /\ get_credentials sample_file = Return "153827" "e555d7e76a0de078".
Proof.
  assert (Hp : parse_lines ["client_id = 153827" +:+ LF;
                            "client_secret = e555d7e76a0de078" +:+ LF] ∅
               = Some (<["client_secret" := "e555d7e76a0de078"]>
                         (<["client_id" := "153827"]> ∅)))
    by reflexivity.
  split; [exact Hp|].
  destruct get_credentials_contract as (_ & _ & _ & H & _).
  apply (H _ _ _ _ Hp); reflexivity.
Defined.

(** C9.  [get_credentials] returns only when every line that contains
    ['='] contains it once, so that it splits into one key and one value;
    a line with a second ['='] (a secret that contains one) makes the
    unpacking raise and the call exit with code 1; lines without ['='] are
    skipped: deleting them changes nothing. *)
Theorem get_credentials_single_equals_sign :
  (forall lines client_id client_secret,
      get_credentials (FileLines lines) = Return client_id client_secret ->
      Forall (fun line => contains "=" line = true ->
                count "=" line = 1%nat /\
                exists key value, split "=" (strip line) = [key; value])
             lines)
  /\ (forall lines line,
        In line lines -> (2 <= count "=" line)%nat ->
        get_credentials (FileLines lines) = Exit 1)
  /\ (forall line m, contains "=" line = false -> parse_line line m = Some m)
  /\ (forall lines,
        get_credentials (FileLines (List.filter (contains "=") lines))
        = get_credentials (FileLines lines)).
Proof.
  split; [|split; [|split]].
  - intros lines i s H. simpl in H.
    destruct (parse_lines lines ∅) as [m|] eqn:Hp; [|discriminate].
    eapply parse_lines_some; eassumption.
  - intros lines line Hin H2. simpl.
    now rewrite (parse_lines_two_signs _ _ Hin H2).
  - exact parse_line_skip.
  - intros lines. simpl. now rewrite parse_lines_filter.
Qed.

Lemma get_credentials_single_equals_sign_witness :
  In ("client_secret = e555=d7" +:+ LF)
     ["client_id = 153827" +:+ LF; "client_secret = e555=d7" +:+ LF]
  /\ (2 <= count "=" ("client_secret = e555=d7" +:+ LF))%nat
  /\ get_credentials
       (FileLines ["client_id = 153827" +:+ LF;
                   "client_secret = e555=d7" +:+ LF]) = Exit 1.
Proof.
  assert (Hin : In ("client_secret = e555=d7" +:+ LF)
                   ["client_id = 153827" +:+ LF;
                    "client_secret = e555=d7" +:+ LF])
    by (right; left; reflexivity).
  assert (H2 : (2 <= count "=" ("client_secret = e555=d7" +:+ LF))%nat)
    by (vm_compute; lia).
  split; [exact Hin|]. split; [exact H2|].
  destruct get_credentials_single_equals_sign as (_ & H & _).
  exact (H _ _ Hin H2).
Defined.

End CredentialFacts.

(** ** Grouping *)

Section GroupingFacts.

Import Calendar Training.
Local Open Scope Z_scope.

Lemma key_eqb_eq (k k' : key) : key_eqb k k' = true <-> k = k'.
Proof.
  destruct k as [y w], k' as [y' w']. unfold key_eqb. simpl.
  rewrite andb_true_iff, !Z.eqb_eq. split; [intros [-> ->] | intros [= -> ->]]; auto.
Qed.

Lemma key_eqb_refl (k : key) : key_eqb k k = true.
Proof. now apply key_eqb_eq. Qed.

Lemma key_eqb_neq (k k' : key) : key_eqb k k' = false <-> k <> k'.
Proof.
  rewrite <- key_eqb_eq. destruct (key_eqb k k'); split; congruence.
Qed.

Lemma key_ltb_lt (k k' : key) :
  key_ltb k k' = true <->
  fst k < fst k' \/ (fst k = fst k' /\ snd k < snd k').
Proof.
  unfold key_ltb.
  rewrite orb_true_iff, andb_true_iff, !Z.ltb_lt, Z.eqb_eq. tauto.
Qed.

Lemma key_ltb_trans (a b c : key) :
  key_ltb a b = true -> key_ltb b c = true -> key_ltb a c = true.
Proof. rewrite !key_ltb_lt. lia. Qed.

Lemma key_ltb_irrefl (a : key) : key_ltb a a = false.
Proof.
  destruct (key_ltb a a) eqn:E; [|reflexivity].
  apply key_ltb_lt in E. lia.
Qed.

Lemma key_trichotomy (a b : key) :
  key_eqb a b = false -> key_ltb a b = false -> key_ltb b a = true.
Proof.
  intros He Hl. apply key_ltb_lt.
  assert (Hn : ~ (fst a < fst b \/ (fst a = fst b /\ snd a < snd b)))
    by (rewrite <- key_ltb_lt; congruence).
  apply key_eqb_neq in He.
  destruct a as [y w], b as [y' w']. simpl in *.
  assert (~ (y = y' /\ w = w')) by (intros [-> ->]; now apply He).
  lia.
Qed.

Lemma group_of_below (k : key) (groups : list (key * list Activity)) :
  Forall (fun y => key_ltb k (fst y) = true) groups ->
  group_of k groups = None.
Proof.
  induction 1 as [|[k' g] rest Hlt _ IH]; simpl; [reflexivity|].
  destruct (key_eqb k' k) eqn:E; [|exact IH].
  apply key_eqb_eq in E. subst k'. simpl in Hlt.
  now rewrite key_ltb_irrefl in Hlt.
Qed.

Lemma group_of_In (k : key) (g : list Activity)
    (groups : list (key * list Activity)) :
  ordered groups -> (In (k, g) groups <-> group_of k groups = Some g).
Proof.
  induction 1 as [|[k' g'] rest Hs IH Hall]; simpl.
  - split; [tauto | discriminate].
  - destruct (key_eqb k' k) eqn:E.
    + apply key_eqb_eq in E. subst k'. split.
      * intros [[= ->] | Hin]; [reflexivity|].
        rewrite List.Forall_forall in Hall. specialize (Hall _ Hin).
        simpl in Hall. now rewrite key_ltb_irrefl in Hall.
      * intros [= ->]. now left.
    + rewrite <- IH. split; [|tauto].
      intros [[= -> ->] | Hin]; [|exact Hin].
      now rewrite key_eqb_refl in E.
Qed.

Lemma add_row_Forall (P : key -> Prop) (k : key) (a : Activity)
    (groups : list (key * list Activity)) :
  P k -> Forall (fun y => P (fst y)) groups ->
  Forall (fun y => P (fst y)) (add_row k a groups).
Proof.
  intros Hk. induction 1 as [|[k' g] rest Hh Ht IH]; simpl.
  - now repeat constructor.
  - destruct (key_eqb k k'); [now constructor|].
    destruct (key_ltb k k'); repeat constructor; auto.
Qed.

Lemma add_row_ordered (k : key) (a : Activity)
    (groups : list (key * list Activity)) :
  ordered groups -> ordered (add_row k a groups).
Proof.
  induction 1 as [|[k' g] rest Hs IH Hall]; simpl.
  - repeat constructor.
  - destruct (key_eqb k k') eqn:E; [now constructor|].
    destruct (key_ltb k k') eqn:L.
    + constructor; [now constructor|]. constructor; [exact L|].
      eapply List.Forall_impl; [|exact Hall]. simpl. intros y Hy.
      eapply key_ltb_trans; eassumption.
    + constructor; [exact IH|].
      apply (add_row_Forall (fun x => key_ltb k' x = true)); [|exact Hall].
      now apply key_trichotomy.
Qed.

Lemma add_row_group_of (k k' : key) (a : Activity)
    (groups : list (key * list Activity)) :
  ordered groups ->
  group_of k' (add_row k a groups)
  = if key_eqb k k' then Some (default [] (group_of k groups) ++ [a])
    else group_of k' groups.
Proof.
  induction 1 as [|[k1 g1] rest Hs IH Hall]; simpl.
  - destruct (key_eqb k k'); reflexivity.
  - destruct (key_eqb k k1) eqn:E1.
    + apply key_eqb_eq in E1. subst k1. simpl. rewrite key_eqb_refl.
      destruct (key_eqb k k'); reflexivity.
    + assert (E1' : key_eqb k1 k = false).
      { apply key_eqb_neq. apply key_eqb_neq in E1. congruence. }
      rewrite E1'. destruct (key_ltb k k1) eqn:L; simpl.
      * destruct (key_eqb k k') eqn:E; [|reflexivity].
        rewrite group_of_below; [reflexivity|].
        eapply List.Forall_impl; [|exact Hall]. simpl. intros y Hy.
        eapply key_ltb_trans; eassumption.
      * destruct (key_eqb k1 k') eqn:E2.
        -- apply key_eqb_eq in E2. subst k'. now rewrite E1.
        -- exact IH.
Qed.

Lemma rows_of_snoc (k : key) (df : list Activity) (a : Activity) :
  rows_of k (df ++ [a]) = rows_of k df ++ (if has_key k a then [a] else []).
Proof. unfold rows_of. rewrite List.filter_app. reflexivity. Qed.

(** What [groupby] holds: for every key the rows of that key, and no
    empty group. *)
Lemma groupby_invariant (df : list Activity) :
  ordered (groupby df) /\
  forall k, group_of k (groupby df)
            = if nonempty (rows_of k df) then Some (rows_of k df) else None.
Proof.
  unfold groupby. induction df as [|a df [Hord Hgrp]] using rev_ind.
  - split; [constructor | reflexivity].
  - rewrite fold_left_app. simpl.
    destruct (key_of a) as [ka|] eqn:Ha.
    + split; [now apply add_row_ordered|].
      intros k. rewrite (add_row_group_of _ _ _ _ Hord), rows_of_snoc.
      unfold has_key. rewrite Ha.
      destruct (key_eqb ka k) eqn:E.
      * apply key_eqb_eq in E. subst ka. rewrite (Hgrp k).
        destruct (rows_of k df); reflexivity.
      * rewrite app_nil_r. apply Hgrp.
    + split; [exact Hord|].
      intros k. rewrite rows_of_snoc. unfold has_key. rewrite Ha, app_nil_r.
      apply Hgrp.
Qed.

Lemma groupby_In (df : list Activity) (k : key) (g : list Activity) :
  In (k, g) (groupby df) <-> g = rows_of k df /\ g <> [].
Proof.
  destruct (groupby_invariant df) as [Hord Hgrp].
  rewrite (group_of_In _ _ _ Hord), Hgrp.
  destruct (rows_of k df) as [|a r]; simpl.
  - split; [discriminate | intros [-> H]; now destruct H].
  - split; [intros [= <-]; split; [reflexivity | discriminate]
           | intros [-> _]; reflexivity].
Qed.

(** A row of the weekly table is the aggregate of the rows of its key. *)
Lemma weekly_stats_In (df : list Activity) (b : WeeklyStat) :
  In b (map weekly_stat (groupby df)) ->
  b = weekly_stat ((year b, week b), rows_of (year b, week b) df)
  /\ rows_of (year b, week b) df <> [].
Proof.
  rewrite in_map_iff. intros ([k g] & <- & Hin).
  apply groupby_In in Hin as [-> Hne]. simpl.
  destruct k as [y w]. simpl. split; [reflexivity | exact Hne].
Qed.

End GroupingFacts.

(** ** The fetch loop *)

Section FetchFacts.

Import Calendar Training.

Lemma loop_body_cases (get_activities : api) (start : option Timestamp)
    (all : list Activity) (page : nat) :
  pass get_activities start all page
    (loop_body get_activities start all page).
Proof.
  unfold pass, loop_body.
  destruct (get_activities per_page page) as [activities|]; [|now split].
  destruct activities as [|a0 rest]; [now split|].
  set (activities := a0 :: rest). simpl negb. cbv iota.
  assert (Hne : activities <> []) by discriminate.
  destruct start as [boundary|].
  2:{ exists activities. repeat split; auto. intros ? ? ? [=]. }
  destruct (last activities) as [last_activity|] eqn:Hlast.
  2:{ exists activities. repeat split; auto. intros; congruence. }
  destruct (start_date last_activity) as [d|] eqn:Hd.
  2:{ exists activities. repeat split; auto. intros; congruence. }
  unfold ts_ltb. destruct (Z.ltb_spec (ts_ord d) (ts_ord boundary)) as [Hlt|Hge].
  - exists activities, boundary, last_activity, d. repeat split; auto.
    destruct (List.filter (on_or_after boundary) activities);
      simpl; [now rewrite app_nil_r | reflexivity].
  - exists activities. repeat split; auto.
    intros ? ? ? [= <-] Hl Hs. rewrite Hlast in Hl. injection Hl as <-.
    rewrite Hd in Hs. injection Hs as <-. exact Hge.
Qed.

(** *** A finite feed served in pages *)

Lemma ceil_div_bounds (n : nat) :
  n <= ceil_div n per_page * per_page < n + per_page.
Proof.
  unfold ceil_div, per_page.
  pose proof (Nat.div_mod_eq (n + 100 - 1) 100).
  pose proof (Nat.mod_upper_bound (n + 100 - 1) 100). lia.
Qed.

Lemma paged_page (feed : list Activity) (q : nat) :
  paged feed per_page (S q)
  = Page (firstn per_page (skipn (q * per_page) feed)).
Proof. unfold paged. now rewrite Nat.sub_succ, Nat.sub_0_r. Qed.

Lemma page_empty (feed : list Activity) (q : nat) :
  firstn per_page (skipn (q * per_page) feed) = [] ->
  length feed <= q * per_page.
Proof.
  intros H. apply (f_equal (@length _)) in H.
  rewrite length_firstn, length_skipn in H. unfold per_page in *.
  simpl length in H. lia.
Qed.

Lemma page_nonempty (feed : list Activity) (q : nat) :
  firstn per_page (skipn (q * per_page) feed) <> [] ->
  q * per_page < length feed.
Proof.
  intros H. destruct (Nat.lt_ge_cases (q * per_page) (length feed)) as [|Hge];
    [assumption|].
  exfalso. apply H. now rewrite skipn_all2.
Qed.

(** Without a start boundary every page of the feed is fetched, then the
    empty page that ends the loop. *)
Lemma fetch_paged_all (feed : list Activity) (fuel : nat) :
  forall q,
    q <= ceil_div (length feed) per_page ->
    ceil_div (length feed) per_page < fuel + q ->
    fetch_loop fuel (paged feed) None (firstn (q * per_page) feed) (S q)
    = Some (mkFetched feed (S (ceil_div (length feed) per_page)) EmptyPage).
Proof.
  pose proof (ceil_div_bounds (length feed)) as Hc.
  induction fuel as [|fuel IH]; intros q Hq Hfuel; [lia|].
  simpl fetch_loop.
  pose proof (loop_body_cases (paged feed) None
                (firstn (q * per_page) feed) (S q)) as Hb.
  unfold pass in Hb.
  destruct (loop_body (paged feed) None (firstn (q * per_page) feed) (S q))
    as [all' page'|all' [| |]].
  - destruct Hb as (acts & Hp & Hne & _ & -> & ->).
    rewrite paged_page in Hp. injection Hp as <-.
    apply page_nonempty in Hne.
    rewrite take_take_drop.
    replace (q * per_page + per_page) with (S q * per_page) by lia.
    apply IH; unfold per_page in *; lia.
  - destruct Hb as [Hp ->]. rewrite paged_page in Hp. injection Hp as Hp.
    apply page_empty in Hp.
    rewrite firstn_all2 by exact Hp.
    replace q with (ceil_div (length feed) per_page) by (unfold per_page in *; lia).
    reflexivity.
  - destruct Hb as (? & ? & ? & ? & _ & _ & [=] & _).
  - destruct Hb as [Hp _]. rewrite paged_page in Hp. discriminate.
Qed.





End FetchFacts.

(** ** Filtering and aggregation *)

Section AggregationFacts.

Import Calendar Training.
Local Open Scope Z_scope.

Lemma nonempty_true {A} (l : list A) : nonempty l = true <-> l <> [].
Proof. destruct l; simpl; split; congruence. Qed.

Lemma on_or_after_spec (boundary : Timestamp) (a : Activity) :
  on_or_after boundary a = true <->
  exists t, start_date a = Some t /\ ts_ord boundary <= ts_ord t.
Proof.
  unfold on_or_after, ts_leb. destruct (start_date a) as [t|].
  - rewrite Z.leb_le. split; [eauto | intros (? & [= <-] & ?); assumption].
  - split; [discriminate | intros (? & [=] & _)].
Qed.

Lemma on_or_before_spec (boundary : Timestamp) (a : Activity) :
  on_or_before boundary a = true <->
  exists t, start_date a = Some t /\ ts_ord t <= ts_ord boundary.
Proof.
  unfold on_or_before, ts_leb. destruct (start_date a) as [t|].
  - rewrite Z.leb_le. split; [eauto | intros (? & [= <-] & ?); assumption].
  - split; [discriminate | intros (? & [=] & _)].
Qed.

(** With both boundaries given, the rows kept are the gathered activities
    whose time stamp lies between them. *)
Lemma retained_both (start end_ : Timestamp) (all : list Activity)
    (a : Activity) :
  In a (retained (Some start) (Some end_) all) <->
  In a all /\
  exists t, start_date a = Some t /\ ts_ord start <= ts_ord t <= ts_ord end_.
Proof.
  unfold retained, filter_range.
  rewrite !filter_In, on_or_after_spec, on_or_before_spec. split.
  - intros ((Hin & t & Ht & Hs) & t' & Ht' & He).
    rewrite Ht in Ht'. injection Ht' as <-. eauto.
  - intros (Hin & t & Ht & Hs & He). eauto 8.
Qed.

(** The only way to a table. *)
Lemma process_Analysed (start end_ : option Timestamp)
    (all : list Activity) (ws : list WeeklyStat) :
  process start end_ all = Analysed ws ->
  missing_columns all = []
  /\ in_columns all col_id = true
  /\ retained start end_ all <> []
  /\ ws = map weekly_stat (groupby (retained start end_ all)).
Proof.
  unfold process, retained.
  destruct (nonempty all); simpl; [|discriminate].
  destruct (missing_columns all); simpl; [|discriminate].
  destruct (filter_range start end_ all) eqn:Hr; simpl; [discriminate|].
  destruct (in_columns all col_id); simpl; [|discriminate].
  intros [= <-]. repeat split. discriminate.
Qed.

Lemma analyze_Analysed (fuel : nat) (strava_api : api)
    (start end_ : option Timestamp) (ws : list WeeklyStat) :
  analyze_training_data fuel strava_api start end_ = Some (Analysed ws) ->
  exists f,
    fetch_loop fuel strava_api start [] 1%nat = Some f
    /\ process start end_ (all_activities f) = Analysed ws.
Proof.
  unfold analyze_training_data.
  destruct (fetch_loop fuel strava_api start [] 1%nat) as [f|];
    [|discriminate].
  intros [= H]. eauto.
Qed.

(** Every row of the weekly table aggregates the retained rows of its
    key. *)
Lemma analyze_bucket (fuel : nat) (strava_api : api)
    (start end_ : option Timestamp) (ws : list WeeklyStat) (b : WeeklyStat) :
  analyze_training_data fuel strava_api start end_ = Some (Analysed ws) ->
  In b ws ->
  exists f,
    fetch_loop fuel strava_api start [] 1%nat = Some f
    /\ let rows := retained start end_ (all_activities f) in
       b = weekly_stat ((year b, week b), rows_of (year b, week b) rows)
       /\ rows_of (year b, week b) rows <> [].
Proof.
  intros H Hin. apply analyze_Analysed in H as (f & Hf & Hp).
  apply process_Analysed in Hp as (_ & _ & _ & ->).
  exists f. split; [exact Hf|]. now apply weekly_stats_In.
Qed.

Lemma count_of_filter {A} (field : Activity -> option A)
    (p : Activity -> bool) (rows : list Activity) :
  count_of field (List.filter p rows)
  = length (List.filter
              (fun a => p a && bool_decide (is_Some (field a))) rows).
Proof.
  unfold count_of. induction rows as [|a rows IH]; simpl; [reflexivity|].
  destruct (p a); simpl; [|exact IH].
  destruct (field a); simpl; [f_equal; exact IH | exact IH].
Qed.


Lemma analyze_bucket_of (fuel : nat) (strava_api : api)
    (start end_ : option Timestamp) (f : fetched) (ws : list WeeklyStat)
    (b : WeeklyStat) :
  fetch_loop fuel strava_api start [] 1%nat = Some f ->
  analyze_training_data fuel strava_api start end_ = Some (Analysed ws) ->
  In b ws ->
  b = weekly_stat ((year b, week b),
                   rows_of (year b, week b)
                     (retained start end_ (all_activities f))).
Proof.
  intros Hf H Hin.
  destruct (analyze_bucket _ _ _ _ _ _ H Hin) as (f' & Hf' & Hb & _).
  rewrite Hf in Hf'. injection Hf' as <-. exact Hb.
Qed.



(** C4.  With a start and an end date given, the table is the aggregate
    of the retained rows, and a gathered activity is retained exactly when
    it has a start time stamp [t] with [start <= t <= end_], whatever page
    it came on. *)
Theorem date_range_closed_interval :
  forall fuel strava_api start end_ f ws,
    fetch_loop fuel strava_api (Some start) [] 1%nat = Some f ->
    analyze_training_data fuel strava_api (Some start) (Some end_)
    = Some (Analysed ws) ->
    let rows := retained (Some start) (Some end_) (all_activities f) in
    ws = map weekly_stat (groupby rows)
    /\ (forall a,
          In a rows <->
          In a (all_activities f)
          /\ exists t, start_date a = Some t
                       /\ ts_ord start <= ts_ord t <= ts_ord end_)
    /\ (forall b, In b ws ->
          b = weekly_stat ((year b, week b), rows_of (year b, week b) rows)
          /\ Forall (fun a => exists t, start_date a = Some t
                        /\ ts_ord start <= ts_ord t <= ts_ord end_)
                    (rows_of (year b, week b) rows)).
Proof.
  intros fuel strava_api start end_ f ws Hf H rows.
  pose proof H as H'.
  apply analyze_Analysed in H' as (f' & Hf' & Hp).
  rewrite Hf in Hf'. injection Hf' as <-.
  apply process_Analysed in Hp as (_ & _ & _ & Hws).
  split; [exact Hws|]. split; [intros a; apply retained_both|].
  intros b Hin. split.
  - exact (analyze_bucket_of _ _ _ _ _ _ _ Hf H Hin).
  - apply List.Forall_forall. intros a Ha.
    unfold rows_of in Ha. apply filter_In in Ha as [Ha _].
    now apply retained_both in Ha.
Qed.

Lemma date_range_closed_interval_witness :
  fetch_loop 2 (paged new_year_feed) (Some (midnight 2024 1 1)) [] 1%nat
  = Some (mkFetched [run 2 2024 1 1 5000 1800] 1 BeforeStart)
  /\ analyze_training_data 2 (paged new_year_feed)
       (Some (midnight 2024 1 1)) (Some (midnight 2025 4 21))
     = Some (Analysed [weekly_stat ((2024, 1), [run 2 2024 1 1 5000 1800])])
  /\ ~ In (run 1 2023 12 31 8000 2400)
          (retained (Some (midnight 2024 1 1)) (Some (midnight 2025 4 21))
             [run 2 2024 1 1 5000 1800]).
Proof.
  assert (Hf : fetch_loop 2 (paged new_year_feed)
                 (Some (midnight 2024 1 1)) [] 1%nat
               = Some (mkFetched [run 2 2024 1 1 5000 1800] 1 BeforeStart))
    by reflexivity.
  assert (H : analyze_training_data 2 (paged new_year_feed)
                (Some (midnight 2024 1 1)) (Some (midnight 2025 4 21))
              = Some (Analysed
                        [weekly_stat ((2024, 1), [run 2 2024 1 1 5000 1800])]))
    by reflexivity.
  split; [exact Hf|]. split; [exact H|].
  destruct (date_range_closed_interval _ _ _ _ _ _ Hf H) as (_ & Hrows & _).
  intros Hin. apply Hrows in Hin as (_ & t & [= <-] & Hs & _).
  vm_compute in Hs. now apply Hs.
Defined.





(** C6 (amended).  In every row of the weekly table [average_speed_kmh]
    is the quotient of [total_distance_km] by [total_time_hours], taken
    without a guard: the exact quotient when the time is not zero, and with
    a zero time NaN for a zero distance, plus infinity for a positive and
    minus infinity for a negative one. *)
Theorem average_speed_unguarded :
  forall fuel strava_api start end_ ws b,
    analyze_training_data fuel strava_api start end_ = Some (Analysed ws) ->
    In b ws ->
    average_speed_kmh b = fdiv (total_distance_km b) (total_time_hours b)
    /\ (~ (total_time_hours b == 0)%Q ->
        average_speed_kmh b
        = Finite (total_distance_km b / total_time_hours b))
    /\ ((total_time_hours b == 0)%Q ->
        ((total_distance_km b == 0)%Q -> average_speed_kmh b = NaN)
        /\ ((0 < total_distance_km b)%Q -> average_speed_kmh b = PosInf)
        /\ ((total_distance_km b < 0)%Q -> average_speed_kmh b = NegInf)).
Proof.
  intros fuel strava_api start end_ ws b H Hin.
  destruct (analyze_bucket _ _ _ _ _ _ H Hin) as (f & _ & Hb & _).
  assert (Hdiv : average_speed_kmh b
                 = fdiv (total_distance_km b) (total_time_hours b))
    by (rewrite Hb; reflexivity).
  split; [exact Hdiv|]. rewrite Hdiv. unfold fdiv. split.
  - intros Hnz. destruct (Qeq_bool (total_time_hours b) 0) eqn:E;
      [|reflexivity].
    apply Qeq_bool_iff in E. contradiction.
  - intros Hz. apply Qeq_bool_iff in Hz. rewrite Hz. repeat split.
    + intros Hd. apply Qeq_bool_iff in Hd. now rewrite Hd.
    + intros Hd.
      destruct (Qeq_bool (total_distance_km b) 0) eqn:E.
      * apply Qeq_bool_iff in E. rewrite E in Hd. now apply Qlt_irrefl in Hd.
      * assert (Hle : Qle_bool 0 (total_distance_km b) = true)
          by (apply Qle_bool_iff; now apply Qlt_le_weak).
        now rewrite Hle.
    + intros Hd.
      destruct (Qeq_bool (total_distance_km b) 0) eqn:E.
      * apply Qeq_bool_iff in E. rewrite E in Hd. now apply Qlt_irrefl in Hd.
      * destruct (Qle_bool 0 (total_distance_km b)) eqn:Hle; [|reflexivity].
        apply Qle_bool_iff in Hle. exfalso.
        exact (Qlt_irrefl _ (Qle_lt_trans _ _ _ Hle Hd)).
Qed.

Lemma average_speed_unguarded_witness :
  analyze_training_data 2 (paged zero_time_feed) None None
  = Some (Analysed [weekly_stat ((2024, 10), zero_time_feed)])
  /\ (total_time_hours (weekly_stat ((2024, 10)%Z, zero_time_feed)) == 0)%Q
  /\ (0 < total_distance_km (weekly_stat ((2024, 10)%Z, zero_time_feed)))%Q
  /\ average_speed_kmh (weekly_stat ((2024, 10), zero_time_feed)) = PosInf.
Proof.
  assert (H : analyze_training_data 2 (paged zero_time_feed) None None
              = Some (Analysed [weekly_stat ((2024, 10), zero_time_feed)]))
    by reflexivity.
  assert (Hz : (total_time_hours
                  (weekly_stat ((2024, 10)%Z, zero_time_feed)) == 0)%Q)
    by reflexivity.
  assert (Hd : (0 < total_distance_km
                      (weekly_stat ((2024, 10)%Z, zero_time_feed)))%Q)
    by reflexivity.
  split; [exact H|]. split; [exact Hz|]. split; [exact Hd|].
  destruct (average_speed_unguarded _ _ _ _ _ _ H (or_introl eq_refl))
    as (_ & _ & Hzero).
  exact (proj1 (proj2 (Hzero Hz)) Hd).
Defined.

(** C6 as stated fails: no value stands for "time is zero".  Two feeds
    with a week of zero time give plus infinity and NaN, the bare results
    of the division, so that no policy value covers both. *)
Lemma average_speed_unguarded_counterexample :
  ~ exists policy : fval,
      forall feed ws b,
        analyze_training_data 2 (paged feed) None None = Some (Analysed ws) ->
        In b ws -> (total_time_hours b == 0)%Q ->
        average_speed_kmh b = policy.
Proof.
  intros (policy & Hp).
  assert (H1 : analyze_training_data 2 (paged zero_time_feed) None None
               = Some (Analysed [weekly_stat ((2024, 10), zero_time_feed)]))
    by reflexivity.
  assert (H2 : analyze_training_data 2 (paged zero_feed) None None
               = Some (Analysed [weekly_stat ((2024, 10), zero_feed)]))
    by reflexivity.
  pose proof (Hp _ _ _ H1 (or_introl eq_refl) (Qeq_refl 0)) as E1.
  pose proof (Hp _ _ _ H2 (or_introl eq_refl) (Qeq_refl 0)) as E2.
  vm_compute in E1, E2. congruence.
Qed.

(** *** Columns *)

Lemma missing_columns_nil (df : list Activity) :
  (forall c, In c required_columns -> in_columns df c = true) ->
  missing_columns df = [].
Proof.
  intros H. unfold missing_columns.
  induction required_columns as [|c cs IH]; simpl; [reflexivity|].
  rewrite (H c) by now left. simpl. apply IH. intros; apply H; now right.
Qed.

Lemma no_id_column (df : list Activity) :
  (forall a, In a df -> id a = None) -> in_columns df col_id = false.
Proof.
  intros H. unfold in_columns.
  induction df as [|a df IH]; simpl; [reflexivity|].
  rewrite (H a) by now left. simpl. apply IH. intros; apply H; now right.
Qed.

Lemma process_without_id (start end_ : option Timestamp)
    (all : list Activity) :
  (forall a, In a all -> id a = None) ->
  (forall c, In c required_columns -> in_columns all c = true) ->
  retained start end_ all <> [] ->
  process start end_ all = ProcessingError.
Proof.
  intros Hid Hcols Hrows. unfold process, retained in *.
  destruct all as [|a0 all]; [destruct start, end_; now destruct Hrows|].
  cbn [nonempty negb]. rewrite (missing_columns_nil _ Hcols). cbn [nonempty].
  destruct (filter_range start end_ (a0 :: all)); [now destruct Hrows|].
  cbn [length Nat.eqb]. now rewrite (no_id_column _ Hid).
Qed.

(** C10 (amended).  [id] is not among the validated columns.  When the
    gathered activities hold the four validated columns, none of them has
    an [id] and a row is left after the date filter, the call passes the
    required-columns check, raises in the aggregation and returns
    [(None, None)] by the generic handler; so does every served feed of
    that kind when no date range is given.  With no [id] anywhere no table
    is ever returned. *)
Theorem missing_id_column :
  ~ In col_id required_columns
  /\ (forall fuel strava_api start end_ f,
        fetch_loop fuel strava_api start [] 1%nat = Some f ->
        (forall a, In a (all_activities f) -> id a = None) ->
        (forall c, In c required_columns ->
                   in_columns (all_activities f) c = true) ->
        retained start end_ (all_activities f) <> [] ->
        analyze_training_data fuel strava_api start end_
        = Some ProcessingError)
  /\ (forall feed fuel,
        feed <> [] ->
        (forall a, In a feed -> id a = None) ->
        (forall c, In c required_columns -> in_columns feed c = true) ->
        (ceil_div (length feed) per_page < fuel)%nat ->
        analyze_training_data fuel (paged feed) None None
        = Some ProcessingError)
  /\ (forall fuel strava_api start end_ f ws,
        fetch_loop fuel strava_api start [] 1%nat = Some f ->
        (forall a, In a (all_activities f) -> id a = None) ->
        analyze_training_data fuel strava_api start end_
        <> Some (Analysed ws)).
Proof.
  split; [|split; [|split]].
  - simpl. intros [H|[H|[H|[H|[]]]]]; discriminate.
  - intros fuel strava_api start end_ f Hf Hid Hcols Hrows.
    unfold analyze_training_data. rewrite Hf.
    now rewrite process_without_id.
  - intros feed fuel Hne Hid Hcols Hfuel.
    unfold analyze_training_data.
    assert (Hf : fetch_loop fuel (paged feed) None [] 1%nat
                 = Some (mkFetched feed
                           (S (ceil_div (length feed) per_page)) EmptyPage))
      by (apply (fetch_paged_all feed fuel 0); lia).
    rewrite Hf. cbn [all_activities]. now rewrite process_without_id.
  - intros fuel strava_api start end_ f ws Hf Hid H.
    apply analyze_Analysed in H as (f' & Hf' & Hp).
    rewrite Hf in Hf'. injection Hf' as <-.
    apply process_Analysed in Hp as (_ & Hcol & _).
    rewrite (no_id_column _ Hid) in Hcol. discriminate.
Qed.

Lemma missing_id_column_witness :
  no_id_feed <> []
  /\ (forall a, In a no_id_feed -> id a = None)
  /\ (forall c, In c required_columns -> in_columns no_id_feed c = true)
  /\ (ceil_div (length no_id_feed) per_page < 2)%nat
  /\ analyze_training_data 2 (paged no_id_feed) None None
     = Some ProcessingError.
Proof.
  assert (Hne : no_id_feed <> []) by discriminate.
  assert (Hid : forall a, In a no_id_feed -> id a = None)
    by (intros a [<-|[]]; reflexivity).
  assert (Hcols : forall c, In c required_columns ->
                            in_columns no_id_feed c = true)
    by (intros c [<-|[<-|[<-|[<-|[]]]]]; reflexivity).
  assert (Hfuel : (ceil_div (length no_id_feed) per_page < 2)%nat)
    by (vm_compute; lia).
  repeat (split; [assumption|]).
  exact (proj1 (proj2 (proj2 missing_id_column)) _ _ Hne Hid Hcols Hfuel).
Defined.

(** C10 as stated fails: a feed of one activity that has neither an [id]
    nor a distance stops at the required-columns check. *)
Lemma missing_id_column_counterexample :
  bare_feed <> []
  /\ (forall a, In a bare_feed -> id a = None)
  /\ analyze_training_data 2 (paged bare_feed) None None
     = Some (MissingColumns
               [col_distance; col_moving_time; col_total_elevation_gain])
  /\ analyze_training_data 2 (paged bare_feed) None None
     <> Some ProcessingError.
Proof.
  split; [discriminate|]. split; [intros a [<-|[]]; reflexivity|].
  split; [reflexivity | discriminate].
Qed.

(** C1, at the input where the code departs from it.  31 December 2023
    and 1 January 2024 are kept apart.  But 30 December 2024 (ISO week
    2025-W01) and 1 January 2024 (ISO week 2024-W01) land in the one bucket
    (2024, 1), and 31 December 2024 and 1 January 2025, two days of ISO
    week 2025-W01, land in two buckets. *)
Theorem year_boundary_grouping :
  (map iso_key_of new_year_feed = [Some (2024, 1); Some (2023, 52)]
   /\ exists b1 b2,
        analyze_training_data 2 (paged new_year_feed) None None
        = Some (Analysed [b1; b2])
        /\ (year b1, week b1) = (2023, 52)
        /\ (year b2, week b2) = (2024, 1))
  /\ (map iso_key_of boundary_feed = [Some (2025, 1); Some (2024, 1)]
      /\ exists b,
           analyze_training_data 2 (paged boundary_feed) None None
           = Some (Analysed [b])
           /\ (year b, week b) = (2024, 1)
           /\ number_of_activities b = 2%nat)
  /\ (map iso_key_of split_week_feed = [Some (2025, 1); Some (2025, 1)]
      /\ exists b1 b2,
           analyze_training_data 2 (paged split_week_feed) None None
           = Some (Analysed [b1; b2])
           /\ (year b1, week b1) = (2024, 1)
           /\ (year b2, week b2) = (2025, 1)).
Proof.
  repeat split; try reflexivity.
  - do 2 eexists. split; [vm_compute; reflexivity|]. split; reflexivity.
  - eexists. split; [vm_compute; reflexivity|]. split; reflexivity.
  - do 2 eexists. split; [vm_compute; reflexivity|]. split; reflexivity.
Qed.

End AggregationFacts.

(** ** The OAuth hand-shake *)

Section OAuthFacts.

Import OAuth.
Local Open Scope string_scope.

Lemma truthy_code (code : string) : code <> "" -> truthy (Some code) = true.
Proof.
  intros H. unfold truthy. now apply String.eqb_neq in H as ->.
Qed.

(** C8.  [get_access_token] takes exactly one request from the listener
    and leaves the others unserved.  When that request has no [code]
    parameter the call returns [None] and nothing is posted.  When it is a
    GET with a [code] parameter, one request is posted to the token
    endpoint, with [grant_type = authorization_code] and that code, and the
    parsed answer is returned (the call raises when the endpoint fails). *)
Theorem get_access_token_single_request :
  forall client_id client_secret token_endpoint r unserved,
    exists out evs,
      get_access_token client_id client_secret token_endpoint (r :: unserved)
      = Some (out, unserved, evs)
      /\ (req_params r !! "code" = None ->
          out = Returned None /\ posts evs = [])
      /\ (req_method r = GET -> parsed (req_params r) ->
          forall values, req_params r !! "code" = Some values ->
          exists code,
            head values = Some code
            /\ In ("grant_type", "authorization_code")
                  (token_request client_id client_secret code)
            /\ In ("code", code)
                  (token_request client_id client_secret code)
            /\ posts evs
               = [(token_url, token_request client_id client_secret code)]
            /\ out = match token_endpoint
                             (token_request client_id client_secret code) with
                     | Some token_data => Returned (Some token_data)
                     | None => Raised
                     end).
Proof.
  intros client_id client_secret token_endpoint [m params] unserved.
  unfold get_access_token, handle_request. cbn [req_method req_params].
  destruct m.
  - unfold do_GET. destruct (params !! "code") as [[|code more]|] eqn:Hc.
    + do 2 eexists. split; [reflexivity|]. split; [discriminate|].
      intros _ Hparsed values [= <-].
      destruct (Hparsed _ _ Hc) as (? & ? & [=] & _).
    + destruct (String.eqb_spec code "") as [->|Hne].
      * do 2 eexists. split; [reflexivity|]. split; [discriminate|].
        intros _ Hparsed values [= <-].
        destruct (Hparsed _ _ Hc) as (? & ? & [= <- <-] & Hne).
        now destruct Hne.
      * rewrite (truthy_code _ Hne). cbn [from_option id].
        destruct (token_endpoint (token_request client_id client_secret code))
          as [token_data|] eqn:Ht;
          (do 2 eexists; split; [reflexivity|]; split; [discriminate|];
           intros _ _ values [= <-]; exists code; rewrite ?Ht;
           repeat split; simpl; auto).
    + do 2 eexists. split; [reflexivity|]. split; [now split|].
      intros _ _ values [=].
  - do 2 eexists. split; [reflexivity|]. split; [now split|].
    intros [=].
Qed.

Lemma get_access_token_single_request_witness :
  req_method callback_with_code = GET
  /\ parsed (req_params callback_with_code)
  /\ req_params callback_with_code !! "code" = Some ["4f1c9a"]
  /\ exists out evs,
       get_access_token "153827" "e555d7"
         (fun _ => Some {["access_token" := "a1b2"]})
         [callback_with_code; callback_denied]
       = Some (out, [callback_denied], evs)
       /\ posts evs = [(token_url, token_request "153827" "e555d7" "4f1c9a")]
       /\ out = Returned (Some {["access_token" := "a1b2"]}).
Proof.
  assert (Hget : req_method callback_with_code = GET) by reflexivity.
  assert (Hparsed : parsed (req_params callback_with_code)).
  { intros name values H. cbn [callback_with_code req_params] in H.
    apply lookup_singleton_Some in H as [_ <-].
    do 2 eexists. split; [reflexivity | discriminate]. }
  assert (Hcode : req_params callback_with_code !! "code" = Some ["4f1c9a"])
    by reflexivity.
  split; [exact Hget|]. split; [exact Hparsed|]. split; [exact Hcode|].
  destruct (get_access_token_single_request "153827" "e555d7"
              (fun _ => Some {["access_token" := "a1b2"]})
              callback_with_code [callback_denied])
    as (out & evs & Hrun & _ & Hpost).
  destruct (Hpost Hget Hparsed _ Hcode) as (code & [= <-] & _ & _ & Hp & Ho).
  exists out, evs. repeat split; assumption.
Defined.

End OAuthFacts.

(** ** More on the credential loader *)

Section CredentialValues.

Import Credentials Notions.
Local Open Scope string_scope.

Lemma strip_idem (s : string) : strip (strip s) = strip s.
Proof.
  unfold strip at 2. now rewrite strip_rstrip, strip_lstrip.
Qed.

Lemma contains_strip (c : ascii) (s : string) :
  contains c s = false -> contains c (strip s) = false.
Proof. intros H. unfold strip. now apply contains_rstrip, contains_lstrip. Qed.

(** No piece of a split holds the separator. *)
Lemma split_pieces (sep : ascii) (s : string) :
  Forall (fun piece => contains sep piece = false) (split sep s).
Proof.
  induction s as [|c s IH]; simpl.
  - now repeat constructor.
  - destruct (Ascii.eqb c sep) eqn:E; [now constructor|].
    destruct (split sep s) as [|p ps].
    { constructor; [simpl; now rewrite E | constructor]. }
    inversion IH as [|? ? Hp Hps]; subst.
    constructor; [simpl; now rewrite E, Hp | exact Hps].
Qed.

Lemma parse_line_tidy (line : string) (m m' : gmap string string) :
  tidy m -> parse_line line m = Some m' -> tidy m'.
Proof.
  intros Hm H. destruct (contains "=" line) eqn:Hc.
  - destruct (parse_line_some _ _ _ H Hc) as (_ & k & v & Hs & ->).
    pose proof (split_pieces "=" (strip line)) as Hp. rewrite Hs in Hp.
    inversion Hp as [|? ? _ Hp']; subst.
    inversion Hp' as [|? ? Hv _]; subst.
    intros key value Hl. destruct (decide (strip k = key)) as [<-|Hne].
    + rewrite lookup_insert_eq in Hl. injection Hl as <-.
      split; [apply strip_idem | now apply contains_strip].
    + rewrite lookup_insert_ne in Hl by exact Hne. now apply Hm in Hl.
  - rewrite (parse_line_skip _ _ Hc) in H. now injection H as <-.
Qed.

Lemma parse_lines_tidy (lines : list string) :
  forall m m', tidy m -> parse_lines lines m = Some m' -> tidy m'.
Proof.
  induction lines as [|line lines IH]; intros m m' Hm H; simpl in H.
  - now injection H as <-.
  - destruct (parse_line line m) as [m1|] eqn:H1; [|discriminate].
    eapply IH; [|exact H]. eapply parse_line_tidy; eassumption.
Qed.

Lemma parse_lines_app (l1 l2 : list string) :
  forall m, parse_lines (l1 ++ l2) m
            = match parse_lines l1 m with
              | Some m1 => parse_lines l2 m1
              | None => None
              end.
Proof.
  induction l1 as [|line l1 IH]; intros m; simpl; [reflexivity|].
  destruct (parse_line line m); [apply IH | reflexivity].
Qed.

Lemma parse_lines_no_sign (lines : list string) :
  Forall (fun line => contains "=" line = false) lines ->
  forall m, parse_lines lines m = Some m.
Proof.
  induction 1 as [|line lines Hl _ IH]; intros m; simpl; [reflexivity|].
  rewrite (parse_line_skip _ _ Hl). apply IH.
Qed.

(** X1.  The two values [get_credentials] returns carry no white space
    at either end and no ['=']. *)
Theorem returned_credentials_tidy :
  forall f client_id client_secret,
    get_credentials f = Return client_id client_secret ->
    strip client_id = client_id /\ contains "=" client_id = false
    /\ strip client_secret = client_secret
    /\ contains "=" client_secret = false.
Proof.
  intros [| |lines] i s H; simpl in H; try discriminate.
  destruct (parse_lines lines ∅) as [m|] eqn:Hp; [|discriminate].
  assert (Hm : tidy m).
  { eapply parse_lines_tidy; [|exact Hp]. intros k v Hl.
    now rewrite lookup_empty in Hl. }
  destruct (m !! "client_id") as [i'|] eqn:Hi; [|discriminate].
  destruct (m !! "client_secret") as [s'|] eqn:Hs; [|discriminate].
  injection H as <- <-.
  destruct (Hm _ _ Hi), (Hm _ _ Hs). auto.
Qed.

Lemma returned_credentials_tidy_witness :
  get_credentials sample_file = Return "153827" "e555d7e76a0de078"
  /\ strip "153827" = "153827"
  /\ contains "=" "e555d7e76a0de078" = false.
Proof.
  assert (H : get_credentials sample_file
              = Return "153827" "e555d7e76a0de078") by reflexivity.
  split; [exact H|].
  destruct (returned_credentials_tidy _ _ _ H) as (H1 & _ & _ & H4).
  split; [exact H1 | exact H4].
Defined.

(** X2.  A later line overrides an earlier one: when the file ends with
    a [client_id=] and a [client_secret=] line and the lines before them
    are read without error, the values of these two lines are returned,
    stripped, whatever the earlier lines assigned. *)
Theorem last_assignment_wins :
  forall lines m client_id client_secret,
    parse_lines lines ∅ = Some m ->
    contains "=" client_id = false ->
    contains "=" client_secret = false ->
    get_credentials
      (FileLines (lines ++ ["client_id=" +:+ client_id;
                            "client_secret=" +:+ client_secret]))
    = Return (strip client_id) (strip client_secret).
Proof.
  intros lines m i s Hp Hi Hs. simpl get_credentials.
  rewrite parse_lines_app, Hp. cbn [parse_lines].
  change ("client_id=" +:+ i) with ("client_id" +:+ String "=" i).
  change ("client_secret=" +:+ s) with ("client_secret" +:+ String "=" s).
  rewrite (parse_line_key_value "client_id" i m eq_refl Hi).
  rewrite (parse_line_key_value "client_secret" s _ eq_refl Hs).
  change (strip "client_id") with "client_id".
  change (strip "client_secret") with "client_secret".
  rewrite lookup_insert_ne by discriminate.
  now rewrite !lookup_insert_eq.
Qed.

Lemma last_assignment_wins_witness :
  parse_lines ["client_id = old" +:+ LF] ∅
  = Some (<["client_id" := "old"]> ∅)
  /\ get_credentials
       (FileLines (["client_id = old" +:+ LF]
                   ++ ["client_id=" +:+ (" 153827" +:+ LF);
                       "client_secret=" +:+ (" e555d7" +:+ LF)]))
     = Return "153827" "e555d7".
Proof.
  assert (Hp : parse_lines ["client_id = old" +:+ LF] ∅
               = Some (<["client_id" := "old"]> ∅)) by reflexivity.
  split; [exact Hp|].
  exact (last_assignment_wins _ _ (" 153827" +:+ LF) (" e555d7" +:+ LF)
           Hp eq_refl eq_refl).
Defined.

(** X3.  A file none of whose lines holds an ['='], the empty file among
    them, makes [get_credentials] exit with code 1. *)
Theorem no_assignment_exits :
  forall lines,
    Forall (fun line => contains "=" line = false) lines ->
    get_credentials (FileLines lines) = Exit 1.
Proof.
  intros lines H. simpl. now rewrite (parse_lines_no_sign _ H).
Qed.

Lemma no_assignment_exits_witness :
  Forall (fun line => contains "=" line = false)
    ["client_id: 153827" +:+ LF]
  /\ get_credentials (FileLines ["client_id: 153827" +:+ LF]) = Exit 1.
Proof.
  assert (H : Forall (fun line => contains "=" line = false)
                ["client_id: 153827" +:+ LF])
    by (repeat constructor).
  split; [exact H | exact (no_assignment_exits _ H)].
Defined.

End CredentialValues.

(** ** More on the weekly table *)

Section TableFacts.

Import Calendar Training Notions.
Local Open Scope Z_scope.

Lemma key_of_dated (a : Activity) :
  dated a = true <-> exists k, key_of a = Some k.
Proof.
  unfold dated, key_of. destruct (start_date a) as [t|]; simpl.
  - split; eauto.
  - split; [discriminate | intros (? & [=])].
Qed.

Lemma has_key_rows (a : Activity) (k : key) (rows : list Activity) :
  In a rows -> key_of a = Some k -> In a (rows_of k rows).
Proof.
  intros Hin Hk. unfold rows_of. apply filter_In. split; [exact Hin|].
  unfold has_key. now rewrite Hk, key_eqb_refl.
Qed.

Lemma groupby_nonempty (rows : list Activity) (a : Activity) :
  In a rows -> dated a = true -> groupby rows <> [].
Proof.
  intros Hin Hd. apply key_of_dated in Hd as (k & Hk).
  destruct (groupby_invariant rows) as [_ Hgrp]. specialize (Hgrp k).
  pose proof (has_key_rows _ _ _ Hin Hk) as Hrow.
  destruct (rows_of k rows); [destruct Hrow|].
  intros E. rewrite E in Hgrp. discriminate.
Qed.

Lemma on_or_after_dated (boundary : Timestamp) (a : Activity) :
  on_or_after boundary a = true -> dated a = true.
Proof. unfold on_or_after, dated. now destruct (start_date a). Qed.

Lemma on_or_before_dated (boundary : Timestamp) (a : Activity) :
  on_or_before boundary a = true -> dated a = true.
Proof. unfold on_or_before, dated. now destruct (start_date a). Qed.

(** A frame that passed the column check has a dated row after the two
    filters, unless these left nothing. *)
Lemma retained_dated (start end_ : option Timestamp) (all : list Activity) :
  in_columns all col_start_date = true ->
  retained start end_ all <> [] ->
  exists a, In a (retained start end_ all) /\ dated a = true.
Proof.
  unfold retained, filter_range. intros Hcol Hne.
  destruct end_ as [e|].
  - destruct (List.filter (on_or_before e) _) as [|a r] eqn:E;
      [now destruct Hne|].
    exists a. split; [now left|].
    assert (Hin : In a (a :: r)) by now left.
    rewrite <- E in Hin. apply filter_In in Hin as [_ Hin].
    now apply on_or_before_dated in Hin.
  - destruct start as [s|].
    + destruct (List.filter (on_or_after s) all) as [|a r] eqn:E;
        [now destruct Hne|].
      exists a. split; [now left|].
      assert (Hin : In a (a :: r)) by now left.
      rewrite <- E in Hin. apply filter_In in Hin as [_ Hin].
      now apply on_or_after_dated in Hin.
    + unfold in_columns in Hcol. apply existsb_exists in Hcol as (a & Hin & Ha).
      exists a. split; [exact Hin | exact Ha].
Qed.

Lemma missing_columns_start_date (df : list Activity) :
  missing_columns df = [] -> in_columns df col_start_date = true.
Proof.
  unfold missing_columns, required_columns. simpl.
  destruct (in_columns df col_start_date); [reflexivity | discriminate].
Qed.

(** X4.  A weekly table that is returned has at least one row. *)
Theorem table_not_empty :
  forall fuel strava_api start end_ ws,
    analyze_training_data fuel strava_api start end_ = Some (Analysed ws) ->
    ws <> [].
Proof.
  intros fuel strava_api start end_ ws H.
  apply analyze_Analysed in H as (f & _ & Hp).
  apply process_Analysed in Hp as (Hcols & _ & Hne & ->).
  apply missing_columns_start_date in Hcols.
  destruct (retained_dated _ _ _ Hcols Hne) as (a & Hin & Hd).
  pose proof (groupby_nonempty _ _ Hin Hd) as Hg.
  destruct (groupby _); [now destruct Hg | discriminate].
Qed.

Lemma table_not_empty_witness :
  analyze_training_data 2 (paged week10_feed) None None
  = Some (Analysed [weekly_stat ((2024, 10), week10_feed)])
  /\ [weekly_stat ((2024, 10), week10_feed)] <> [].
Proof.
  assert (H : analyze_training_data 2 (paged week10_feed) None None
              = Some (Analysed [weekly_stat ((2024, 10), week10_feed)]))
    by reflexivity.
  split; [exact H | exact (table_not_empty _ _ _ _ _ H)].
Defined.

Lemma StronglySorted_map {A B} (R : A -> A -> Prop) (R' : B -> B -> Prop)
    (f : A -> B) (l : list A) :
  (forall x y, R x y -> R' (f x) (f y)) ->
  StronglySorted R l -> StronglySorted R' (map f l).
Proof.
  intros HR. induction 1 as [|x l Hs IH Hall]; simpl; constructor; auto.
  apply List.Forall_forall. intros y Hy. apply in_map_iff in Hy as (z & <- & Hz).
  rewrite List.Forall_forall in Hall. auto.
Qed.

Lemma weekly_stat_key (k : key) (g : list Activity) :
  (year (weekly_stat (k, g)), week (weekly_stat (k, g))) = k.
Proof. now destruct k. Qed.

(** X5.  The rows of a returned table are in strictly increasing
    (year, week) order; no two rows share a year and a week. *)
Theorem table_in_week_order :
  forall fuel strava_api start end_ ws,
    analyze_training_data fuel strava_api start end_ = Some (Analysed ws) ->
    StronglySorted by_week ws
    /\ List.NoDup (map (fun b => (year b, week b)) ws).
Proof.
  intros fuel strava_api start end_ ws H.
  apply analyze_Analysed in H as (f & _ & Hp).
  apply process_Analysed in Hp as (_ & _ & _ & ->).
  destruct (groupby_invariant (retained start end_ (all_activities f)))
    as [Hord _].
  assert (Hs : StronglySorted by_week
                 (map weekly_stat
                    (groupby (retained start end_ (all_activities f))))).
  { eapply StronglySorted_map; [|exact Hord].
    intros [k g] [k' g'] Hlt. unfold by_week.
    now rewrite !weekly_stat_key. }
  split; [exact Hs|].
  induction Hs as [|b l _ IH Hall]; simpl; constructor; [|exact IH].
  intros Hin. apply in_map_iff in Hin as (b' & Hk & Hb').
  rewrite List.Forall_forall in Hall. specialize (Hall _ Hb').
  unfold by_week in Hall. rewrite Hk, key_ltb_irrefl in Hall. discriminate.
Qed.

Lemma table_in_week_order_witness :
  analyze_training_data 2 (paged new_year_feed) None None
  = Some (Analysed [weekly_stat ((2023, 52), [run 1 2023 12 31 8000 2400]);
                    weekly_stat ((2024, 1), [run 2 2024 1 1 5000 1800])])
  /\ List.NoDup [(2023, 52); (2024, 1)].
Proof.
  assert (H : analyze_training_data 2 (paged new_year_feed) None None
              = Some (Analysed
                        [weekly_stat ((2023, 52), [run 1 2023 12 31 8000 2400]);
                         weekly_stat ((2024, 1), [run 2 2024 1 1 5000 1800])]))
    by reflexivity.
  split; [exact H | exact (proj2 (table_in_week_order _ _ _ _ _ H))].
Defined.

End TableFacts.

(** ** Nothing is lost or counted twice by the grouping *)

Section ConservationFacts.

Import Calendar Training Notions.
Local Open Scope Q_scope.

Lemma Qsum_app (l1 l2 : list Q) : Qsum (l1 ++ l2) == Qsum l1 + Qsum l2.
Proof.
  induction l1 as [|x l1 IH]; simpl.
  - now rewrite Qplus_0_l.
  - rewrite IH. apply Qplus_assoc.
Qed.









Lemma count_of_snoc {A} (field : Activity -> option A) (g : list Activity)
    (a : Activity) :
  count_of field (g ++ [a])
  = (count_of field g + count_of field [a])%nat.
Proof. unfold count_of. now rewrite omap_app, length_app. Qed.

Lemma count_of_cons {A} (field : Activity -> option A) (a : Activity)
    (g : list Activity) :
  count_of field (a :: g) = (count_of field [a] + count_of field g)%nat.
Proof. unfold count_of. simpl. now destruct (field a). Qed.

Lemma groups_count_add_row {A} (field : Activity -> option A) (k : key)
    (a : Activity) (groups : list (key * list Activity)) :
  list_sum (map (fun kg => count_of field (snd kg)) (add_row k a groups))
  = (list_sum (map (fun kg => count_of field (snd kg)) groups)
     + count_of field [a])%nat.
Proof.
  unfold list_sum.
  induction groups as [|[k' g] rest IH]; cbn [add_row].
  - cbn [map fold_right snd]. lia.
  - destruct (key_eqb k k'); cbn [map fold_right snd].
    + rewrite count_of_snoc. lia.
    + destruct (key_ltb k k'); cbn [map fold_right snd].
      * lia.
      * rewrite IH. lia.
Qed.

Lemma groups_count_fold {A} (field : Activity -> option A)
    (df : list Activity) :
  forall groups,
    list_sum (map (fun kg => count_of field (snd kg))
                (fold_left (fun groups a =>
                              match key_of a with
                              | Some k => add_row k a groups
                              | None => groups
                              end) df groups))
    = (list_sum (map (fun kg => count_of field (snd kg)) groups)
       + count_of field (List.filter dated df))%nat.
Proof.
  induction df as [|a df IH]; intros groups; cbn [fold_left List.filter].
  - unfold count_of. simpl. lia.
  - rewrite IH. unfold dated, key_of.
    destruct (start_date a) as [t|]; cbn [bool_decide].
    + rewrite groups_count_add_row.
      change (bool_decide (is_Some (Some t))) with true. cbn iota.
      rewrite (count_of_cons field a (List.filter _ df)). lia.
    + reflexivity.
Qed.

(** X7.  The activity counts of the table add up to the number of
    retained activities that carry a start date and an [id]: each such
    activity is counted in one row, once. *)
Theorem counts_conserved :
  forall fuel strava_api start end_ f ws,
    fetch_loop fuel strava_api start [] 1%nat = Some f ->
    analyze_training_data fuel strava_api start end_ = Some (Analysed ws) ->
    list_sum (map number_of_activities ws)
    = length (List.filter
                (fun a => dated a && bool_decide (is_Some (id a)))
                (retained start end_ (all_activities f))).
Proof.
  intros fuel strava_api start end_ f ws Hf H.
  apply analyze_Analysed in H as (f' & Hf' & Hp).
  rewrite Hf in Hf'. injection Hf' as <-.
  apply process_Analysed in Hp as (_ & _ & _ & ->).
  rewrite map_map, <- count_of_filter.
  transitivity
    (list_sum (map (fun kg => count_of id (snd kg))
                 (groupby (retained start end_ (all_activities f))))).
  - f_equal. apply map_ext. now intros [k g].
  - unfold groupby. rewrite groups_count_fold. simpl. lia.
Qed.

Lemma counts_conserved_witness :
  fetch_loop 2 (paged partial_id_feed) None [] 1%nat
  = Some (mkFetched partial_id_feed 2 EmptyPage)
  /\ analyze_training_data 2 (paged partial_id_feed) None None
     = Some (Analysed [weekly_stat ((2024, 10)%Z, partial_id_feed)])
  /\ list_sum (map number_of_activities
                 [weekly_stat ((2024, 10)%Z, partial_id_feed)]) = 1%nat.
Proof.
  assert (Hf : fetch_loop 2 (paged partial_id_feed) None [] 1%nat
               = Some (mkFetched partial_id_feed 2 EmptyPage))
    by reflexivity.
  assert (H : analyze_training_data 2 (paged partial_id_feed) None None
              = Some (Analysed [weekly_stat ((2024, 10)%Z, partial_id_feed)]))
    by reflexivity.
  split; [exact Hf|]. split; [exact H|].
  rewrite (counts_conserved _ _ _ _ _ _ Hf H). reflexivity.
Defined.

End ConservationFacts.

(** ** More on the fetch loop *)

Section PagingFacts.

Import Calendar Training Notions.

Lemma loop_body_same (a b : api) (start : option Timestamp)
    (all : list Activity) (page : nat) :
  a per_page page = b per_page page ->
  loop_body a start all page = loop_body b start all page.
Proof. intros H. unfold loop_body. now rewrite H. Qed.

Lemma fetch_loop_last_page (fuel : nat) (a : api) (start : option Timestamp) :
  forall all page f,
    fetch_loop fuel a start all page = Some f -> page <= last_page f.
Proof.
  induction fuel as [|fuel IH]; intros all page f H; [discriminate|].
  simpl in H. pose proof (loop_body_cases a start all page) as Hb.
  destruct (loop_body a start all page) as [all' page'|all' w].
  - destruct Hb as (_ & _ & _ & _ & _ & ->). apply IH in H. lia.
  - injection H as <-. simpl. lia.
Qed.

Lemma fetch_loop_same (fuel : nat) (a b : api) (start : option Timestamp) :
  forall all page f,
    fetch_loop fuel a start all page = Some f ->
    same_pages a b page (last_page f) ->
    fetch_loop fuel b start all page = Some f.
Proof.
  induction fuel as [|fuel IH]; intros all page f H Hsame; [discriminate|].
  pose proof (fetch_loop_last_page _ _ _ _ _ _ H) as Hle.
  simpl in *. rewrite <- (loop_body_same a b) by (apply Hsame; lia).
  pose proof (loop_body_cases a start all page) as Hb.
  destruct (loop_body a start all page) as [all' page'|all' w]; [|exact H].
  destruct Hb as (_ & _ & _ & _ & _ & ->).
  apply IH; [exact H|]. intros p Hp. apply Hsame. lia.
Qed.

(** X8.  The analysis asks for pages 1, 2, ... of 100 activities up to
    the page it stops on and for nothing else: a server that answers
    these requests alike gives the same gathered activities and the same
    result, whatever it would answer to any other request. *)
Theorem only_fetched_pages_matter :
  forall fuel a b start end_ f,
    fetch_loop fuel a start [] 1 = Some f ->
    same_pages a b 1 (last_page f) ->
    fetch_loop fuel b start [] 1 = Some f
    /\ analyze_training_data fuel b start end_
       = analyze_training_data fuel a start end_.
Proof.
  intros fuel a b start end_ f H Hsame.
  pose proof (fetch_loop_same _ _ _ _ _ _ _ H Hsame) as H'.
  split; [exact H'|]. unfold analyze_training_data. now rewrite H, H'.
Qed.

Lemma only_fetched_pages_matter_witness :
  fetch_loop 2 (paged week10_feed) None [] 1
  = Some (mkFetched week10_feed 2 EmptyPage)
  /\ same_pages (paged week10_feed)
       (fun per_page page =>
          if (page <=? 2)%nat then paged week10_feed per_page page
          else Failure) 1 2
  /\ analyze_training_data 2
       (fun per_page page =>
          if (page <=? 2)%nat then paged week10_feed per_page page
          else Failure) None None
     = analyze_training_data 2 (paged week10_feed) None None.
Proof.
  assert (H : fetch_loop 2 (paged week10_feed) None [] 1
              = Some (mkFetched week10_feed 2 EmptyPage)) by reflexivity.
  assert (Hs : same_pages (paged week10_feed)
                 (fun per_page page =>
                    if (page <=? 2)%nat then paged week10_feed per_page page
                    else Failure) 1 2).
  { intros page Hp. destruct (Nat.leb_spec page 2); [reflexivity | lia]. }
  split; [exact H|]. split; [exact Hs|].
  exact (proj2 (only_fetched_pages_matter 2 _ _ None None _ H Hs)).
Defined.

(** X9.  When the first request raises or returns an empty page, the
    call returns [(None, None)] for want of activities, whatever the date
    range. *)
Theorem nothing_fetched :
  forall fuel strava_api start end_,
    strava_api per_page 1 = Failure \/ strava_api per_page 1 = Page [] ->
    analyze_training_data (S fuel) strava_api start end_ = Some NoActivities.
Proof.
  intros fuel strava_api start end_ H.
  unfold analyze_training_data. simpl fetch_loop. unfold loop_body.
  destruct H as [-> | ->]; reflexivity.
Qed.

Lemma nothing_fetched_witness :
  (failing_api per_page 1 = Failure \/ failing_api per_page 1 = Page [])
  /\ analyze_training_data 1 failing_api None None = Some NoActivities.
Proof.
  assert (H : failing_api per_page 1 = Failure
              \/ failing_api per_page 1 = Page []) by (left; reflexivity).
  split; [exact H | exact (nothing_fetched 0 _ None None H)].
Defined.

(** *** A feed served newest first *)

Lemma sorted_after {A} (R : A -> A -> Prop) (l1 l2 : list A) (x : A) :
  StronglySorted R (l1 ++ x :: l2) -> Forall (R x) l2.
Proof.
  induction l1 as [|y l1 IH]; simpl; intros H.
  - now inversion H.
  - inversion H; subst. now apply IH.
Qed.

Lemma filter_twice {A} (p : A -> bool) (l : list A) :
  List.filter p (List.filter p l) = List.filter p l.
Proof.
  induction l as [|x l IH]; simpl; [reflexivity|].
  destruct (p x) eqn:E; simpl; [now rewrite E, IH | exact IH].
Qed.

Lemma filter_none {A} (p : A -> bool) (l : list A) :
  Forall (fun x => p x = false) l -> List.filter p l = [].
Proof.
  induction 1 as [|x l Hx _ IH]; simpl; [reflexivity|]. now rewrite Hx.
Qed.

Lemma older_than_boundary (boundary d : Timestamp)
    (last_activity a : Activity) :
  start_date last_activity = Some d ->
  (ts_ord d < ts_ord boundary)%Z ->
  not_older last_activity a ->
  on_or_after boundary a = false.
Proof.
  intros Hd Hlt (ta & tb & Ha & Hb & Hle).
  rewrite Hd in Ha. injection Ha as <-.
  unfold on_or_after, ts_leb. rewrite Hb. apply Z.leb_gt. lia.
Qed.

Lemma fetch_newest_first (feed : list Activity) (boundary : Timestamp)
    (fuel : nat) :
  newest_first feed ->
  forall q,
    q <= ceil_div (length feed) per_page ->
    ceil_div (length feed) per_page < fuel + q ->
    exists f,
      fetch_loop fuel (paged feed) (Some boundary)
        (firstn (q * per_page) feed) (S q) = Some f
      /\ List.filter (on_or_after boundary) (all_activities f)
         = List.filter (on_or_after boundary) feed.
Proof.
  intros Hsorted. pose proof (ceil_div_bounds (length feed)) as Hc.
  induction fuel as [|fuel IH]; intros q Hq Hfuel; [lia|].
  simpl fetch_loop.
  pose proof (loop_body_cases (paged feed) (Some boundary)
                (firstn (q * per_page) feed) (S q)) as Hb.
  unfold pass in Hb.
  destruct (loop_body (paged feed) (Some boundary)
              (firstn (q * per_page) feed) (S q))
    as [all' page'|all' [| |]].
  - destruct Hb as (acts & Hp & Hne & _ & -> & ->).
    rewrite paged_page in Hp. injection Hp as <-.
    apply page_nonempty in Hne.
    rewrite take_take_drop.
    replace (q * per_page + per_page) with (S q * per_page) by lia.
    apply IH; unfold per_page in *; lia.
  - destruct Hb as [Hp ->]. rewrite paged_page in Hp. injection Hp as Hp.
    apply page_empty in Hp. eexists. split; [reflexivity|].
    cbn [all_activities]. now rewrite firstn_all2.
  - destruct Hb as (acts & b' & la & d & Hp & _ & [= <-] & Hlast & Hd & Hlt
                    & ->).
    rewrite paged_page in Hp. injection Hp as <-.
    eexists. split; [reflexivity|]. cbn [all_activities].
    apply last_Some in Hlast as (front & Hfront).
    assert (Hfeed : feed = (firstn (q * per_page) feed ++ front)
                           ++ la :: skipn per_page (skipn (q * per_page) feed)).
    { rewrite <- app_assoc.
      change (front ++ la :: ?l) with (front ++ [la] ++ l).
      rewrite (app_assoc front), <- Hfront, firstn_skipn.
      now rewrite firstn_skipn. }
    assert (Hrest : List.filter (on_or_after boundary)
                      (skipn per_page (skipn (q * per_page) feed)) = []).
    { apply filter_none. unfold newest_first in Hsorted.
      rewrite Hfeed in Hsorted. apply sorted_after in Hsorted.
      eapply List.Forall_impl; [|exact Hsorted].
      intros a Ha. eapply older_than_boundary; eassumption. }
    rewrite List.filter_app, filter_twice.
    rewrite <- (firstn_skipn (q * per_page) feed) at 3.
    rewrite <- (firstn_skipn per_page (skipn (q * per_page) feed)) at 2.
    now rewrite !List.filter_app, Hrest, app_nil_r.
  - destruct Hb as [Hp _]. rewrite paged_page in Hp. discriminate.
Qed.

Lemma retained_filter (boundary : Timestamp) (end_ : option Timestamp)
    (l l' : list Activity) :
  List.filter (on_or_after boundary) l = List.filter (on_or_after boundary) l' ->
  retained (Some boundary) end_ l = retained (Some boundary) end_ l'.
Proof. intros H. unfold retained, filter_range. now rewrite H. Qed.

(** X10.  When the server holds a finite feed and serves it newest
    first, stopping on the first page whose last record is before the
    start boundary loses nothing: the loop ends, and the rows kept for the
    table are those the date filter keeps of the whole feed. *)
Theorem early_stop_loses_nothing :
  forall feed boundary end_ fuel,
    newest_first feed ->
    ceil_div (length feed) per_page < fuel ->
    exists f,
      fetch_loop fuel (paged feed) (Some boundary) [] 1 = Some f
      /\ retained (Some boundary) end_ (all_activities f)
         = retained (Some boundary) end_ feed.
Proof.
  intros feed boundary end_ fuel Hs Hfuel.
  destruct (fetch_newest_first feed boundary fuel Hs 0) as (f & Hf & Hk);
    [lia | lia |].
  exists f. split; [exact Hf | now apply retained_filter].
Qed.

Lemma early_stop_loses_nothing_witness :
  newest_first new_year_feed
  /\ ceil_div (length new_year_feed) per_page < 2
  /\ exists f,
       fetch_loop 2 (paged new_year_feed) (Some (midnight 2024 1 1)) [] 1
       = Some f
       /\ retained (Some (midnight 2024 1 1)) None (all_activities f)
          = retained (Some (midnight 2024 1 1)) None new_year_feed.
Proof.
  assert (Hs : newest_first new_year_feed).
  { repeat constructor. do 2 eexists.
    split; [reflexivity|]. split; [reflexivity|]. vm_compute. discriminate. }
  assert (Hfuel : ceil_div (length new_year_feed) per_page < 2)
    by (vm_compute; lia).
  split; [exact Hs|]. split; [exact Hfuel|].
  exact (early_stop_loses_nothing _ (midnight 2024 1 1) None _ Hs Hfuel).
Defined.

(** X11.  The end boundary is the midnight that opens the end date: an
    activity that starts later on that day is not retained. *)
Theorem end_day_excluded :
  forall start y m d all a t,
    start_date a = Some t ->
    ts_year t = y -> ts_month t = m -> ts_day t = d ->
    (0 < ts_time t)%Z ->
    ~ In a (retained start (Some (midnight y m d)) all).
Proof.
  intros start y m d all a t Ht <- <- <- Hpos Hin.
  unfold retained, filter_range in Hin.
  apply filter_In in Hin as [_ Hin].
  unfold on_or_before, ts_leb in Hin. rewrite Ht in Hin.
  apply Z.leb_le in Hin. unfold ts_ord, midnight in Hin. simpl in Hin. lia.
Qed.

Lemma end_day_excluded_witness :
  start_date (run 1 2025 4 21 5000 1800) = Some (mkTimestamp 2025 4 21 36000)
  /\ (0 < ts_time (mkTimestamp 2025 4 21 36000))%Z
  /\ ~ In (run 1 2025 4 21 5000 1800)
          (retained (Some (midnight 2024 9 1)) (Some (midnight 2025 4 21))
             [run 1 2025 4 21 5000 1800]).
Proof.
  assert (Hpos : (0 < ts_time (mkTimestamp 2025 4 21 36000))%Z)
    by reflexivity.
  split; [reflexivity|]. split; [exact Hpos|].
  exact (end_day_excluded (Some (midnight 2024 9 1)) 2025 4 21
           [run 1 2025 4 21 5000 1800] (run 1 2025 4 21 5000 1800)
           (mkTimestamp 2025 4 21 36000) eq_refl eq_refl eq_refl eq_refl
           Hpos).
Defined.

End PagingFacts.

(** ** The calendar behind the buckets *)

Section CalendarFacts.

Import Calendar Training Notions.
Local Open Scope Z_scope.

Lemma year_length (y : Z) :
  days_before_year (y + 1) - days_before_year y = 365 + leap_day y.
Proof.
  unfold days_before_year, leap_day, is_leap.
  replace (y + 1 - 1) with y by lia.
  destruct (Z.eqb_spec (y mod 4) 0), (Z.eqb_spec (y mod 100) 0),
    (Z.eqb_spec (y mod 400) 0); simpl;
    Z.div_mod_to_equations; lia.
Qed.

Ltac look_up :=
  repeat match goal with
    | |- context [nth (Z.to_nat ?k) ?L 0] =>
        let v := eval vm_compute in (nth (Z.to_nat k) L 0) in
        change (nth (Z.to_nat k) L 0) with v
    | |- context [?a =? ?b] =>
        let v := eval vm_compute in (a =? b) in change (a =? b) with v
    | |- context [?a <? ?b] =>
        let v := eval vm_compute in (a <? b) in change (a <? b) with v
    end;
  cbn [andb].

Lemma day_of_year_range (y m d : Z) :
  valid_date y m d ->
  1 <= days_before_month y m + d <= 365 + leap_day y.
Proof.
  unfold valid_date, days_in_month, days_before_month, leap_day.
  intros [Hm Hd].
  assert (Hcases : m = 1 \/ m = 2 \/ m = 3 \/ m = 4 \/ m = 5 \/ m = 6
                   \/ m = 7 \/ m = 8 \/ m = 9 \/ m = 10 \/ m = 11 \/ m = 12)
    by lia.
  revert Hd. destruct (is_leap y);
    repeat (destruct Hcases as [-> | Hcases]); try subst m;
    look_up; lia.
Qed.

Lemma isoweek1monday_spec (y : Z) :
  (isoweek1monday y + 6) mod 7 = 0
  /\ days_before_year y - 2 <= isoweek1monday y <= days_before_year y + 4.
Proof.
  unfold isoweek1monday, ymd2ord, days_before_month. simpl nth.
  change ((2 <? 1) && is_leap y) with false. cbv iota.
  generalize (days_before_year y). intros n.
  destruct (Z.ltb_spec 3 ((n + (0 + 0) + 1 + 6) mod 7));
    Z.div_mod_to_equations; lia.
Qed.

Lemma isocalendar_spec (y m d : Z) :
  valid_date y m d ->
  let '(iy, w, wd) := isocalendar y m d in
  y - 1 <= iy <= y + 1 /\ 1 <= w <= 53 /\ 1 <= wd <= 7
  /\ ymd2ord y m d = isoweek1monday iy + 7 * (w - 1) + (wd - 1).
Proof.
  intros Hv. pose proof (day_of_year_range y m d Hv) as Hday.
  pose proof (year_length y) as Hy.
  pose proof (year_length (y - 1)) as Hy'.
  replace (y - 1 + 1) with y in Hy' by lia.
  pose proof (isoweek1monday_spec y) as [HA1 HA2].
  pose proof (isoweek1monday_spec (y - 1)) as [HB1 HB2].
  pose proof (isoweek1monday_spec (y + 1)) as [HC1 HC2].
  assert (Hl : 0 <= leap_day y <= 1) by (unfold leap_day; destruct (is_leap y); lia).
  assert (Hl' : 0 <= leap_day (y - 1) <= 1)
    by (unfold leap_day; destruct (is_leap (y - 1)); lia).
  unfold isocalendar, ymd2ord in *.
  remember (isoweek1monday y) as A eqn:EA.
  remember (isoweek1monday (y - 1)) as B eqn:EB.
  remember (isoweek1monday (y + 1)) as C eqn:EC.
  remember (days_before_month y m) as dbm eqn:Edbm.
  remember (days_before_year y) as n eqn:En.
  remember (days_before_year (y - 1)) as n' eqn:En'.
  remember (days_before_year (y + 1)) as n'' eqn:En''.
  remember (leap_day y) as l eqn:El.
  remember (leap_day (y - 1)) as l' eqn:El'.
  clear Edbm En En' En'' El El' Hv.
  destruct (Z.ltb_spec ((n + dbm + d - A) / 7) 0) as [Hneg|Hpos].
  - rewrite <- EB. clear EA EB EC.
    repeat split; try lia; Z.div_mod_to_equations; lia.
  - destruct (Z.leb_spec 52 ((n + dbm + d - A) / 7)) as [H52|H52];
      destruct (Z.leb_spec C (n + dbm + d)) as [HC|HC]; cbn [andb];
      rewrite <- ?EA, <- ?EC; clear EA EB EC;
      repeat split; try lia; Z.div_mod_to_equations; lia.
Qed.

Lemma iso_week_of_spec (t : Timestamp) :
  valid_timestamp t ->
  1 <= iso_week_of t <= 53
  /\ exists weekday,
       1 <= weekday <= 7
       /\ ymd2ord (ts_year t) (ts_month t) (ts_day t)
          = isoweek1monday (iso_year_of t) + 7 * (iso_week_of t - 1)
            + (weekday - 1).
Proof.
  intros [Hv _]. apply isocalendar_spec in Hv.
  unfold iso_week_of, iso_year_of.
  destruct (isocalendar (ts_year t) (ts_month t) (ts_day t)) as [[iy w] wd].
  simpl. destruct Hv as (_ & Hw & Hwd & Hord). eauto.
Qed.

Lemma week_index_spec (t : Timestamp) :
  valid_timestamp t ->
  week_index t
  = (isoweek1monday (iso_year_of t) + 6) / 7 + iso_week_of t - 1.
Proof.
  intros Hv. destruct (iso_week_of_spec t Hv) as (_ & wd & Hwd & Hord).
  destruct (isoweek1monday_spec (iso_year_of t)) as [Hmon _].
  unfold week_index. rewrite Hord.
  revert Hmon. generalize (isoweek1monday (iso_year_of t)) as M.
  generalize (iso_week_of t) as w. intros.
  Z.div_mod_to_equations. lia.
Qed.

(** X12.  When the retained activities carry dates of the calendar, the
    week of every row of the table lies between 1 and 53, and a row's year
    and week are the calendar year and the ISO week of a retained
    activity. *)
Theorem bucket_week_range :
  forall fuel strava_api start end_ f ws b,
    fetch_loop fuel strava_api start [] 1%nat = Some f ->
    analyze_training_data fuel strava_api start end_ = Some (Analysed ws) ->
    (forall a t, In a (retained start end_ (all_activities f)) ->
                 start_date a = Some t -> valid_timestamp t) ->
    In b ws ->
    1 <= week b <= 53
    /\ exists a t, In a (retained start end_ (all_activities f))
                   /\ start_date a = Some t
                   /\ year b = ts_year t /\ week b = iso_week_of t.
Proof.
  intros fuel strava_api start end_ f ws b Hf H Hvalid Hin.
  destruct (analyze_bucket _ _ _ _ _ _ H Hin) as (f' & Hf' & _ & Hne).
  rewrite Hf in Hf'. injection Hf' as <-.
  destruct (rows_of (year b, week b) (retained start end_ (all_activities f)))
    as [|a r] eqn:E; [now destruct Hne|].
  assert (Ha : In a (a :: r)) by now left.
  rewrite <- E in Ha. unfold rows_of in Ha. apply filter_In in Ha as [Ha Hk].
  unfold has_key, key_of in Hk.
  destruct (start_date a) as [t|] eqn:Ht; [|discriminate].
  apply key_eqb_eq in Hk. injection Hk as Hy Hw.
  destruct (iso_week_of_spec t (Hvalid _ _ Ha Ht)) as [Hrange _].
  split; [rewrite <- Hw; exact Hrange|].
  exists a, t. repeat split; auto.
Qed.

Lemma bucket_week_range_witness :
  fetch_loop 2 (paged week10_feed) None [] 1%nat
  = Some (mkFetched week10_feed 2 EmptyPage)
  /\ analyze_training_data 2 (paged week10_feed) None None
     = Some (Analysed [weekly_stat ((2024, 10), week10_feed)])
  /\ (forall a t, In a (retained None None week10_feed) ->
                  start_date a = Some t -> valid_timestamp t)
  /\ 1 <= week (weekly_stat ((2024, 10), week10_feed)) <= 53.
Proof.
  assert (Hf : fetch_loop 2 (paged week10_feed) None [] 1%nat
               = Some (mkFetched week10_feed 2 EmptyPage)) by reflexivity.
  assert (H : analyze_training_data 2 (paged week10_feed) None None
              = Some (Analysed [weekly_stat ((2024, 10), week10_feed)]))
    by reflexivity.
  assert (Hv : forall a t, In a (retained None None week10_feed) ->
                 start_date a = Some t -> valid_timestamp t).
  { intros a t [<-|[<-|[<-|[]]]] [= <-]; vm_compute;
      repeat split; congruence. }
  split; [exact Hf|]. split; [exact H|]. split; [exact Hv|].
  exact (proj1 (bucket_week_range _ _ _ _ _ _ _ Hf H Hv (or_introl eq_refl))).
Defined.

(** X13.  Away from the turn of the year, grouping is by calendar week:
    two activities with dates of the calendar whose ISO year is their
    calendar year get the same (year, week) key exactly when they start in
    the same calendar year and in the same Monday-to-Sunday week. *)
Theorem same_key_same_week :
  forall a1 a2 t1 t2,
    start_date a1 = Some t1 -> start_date a2 = Some t2 ->
    valid_timestamp t1 -> valid_timestamp t2 ->
    iso_year_of t1 = year_of t1 -> iso_year_of t2 = year_of t2 ->
    (key_of a1 = key_of a2
     <-> year_of t1 = year_of t2 /\ week_index t1 = week_index t2).
Proof.
  intros a1 a2 t1 t2 H1 H2 Hv1 Hv2 Hy1 Hy2.
  unfold key_of. rewrite H1, H2.
  rewrite (week_index_spec _ Hv1), (week_index_spec _ Hv2), Hy1, Hy2.
  split.
  - intros [= Hy Hw]. rewrite Hy, Hw. split; reflexivity.
  - intros [Hy Hw]. rewrite Hy in *. f_equal. f_equal. lia.
Qed.

Lemma same_key_same_week_witness :
  valid_timestamp (mkTimestamp 2024 3 4 36000)
  /\ valid_timestamp (mkTimestamp 2024 3 10 36000)
  /\ iso_year_of (mkTimestamp 2024 3 4 36000) = 2024
  /\ week_index (mkTimestamp 2024 3 4 36000)
     = week_index (mkTimestamp 2024 3 10 36000)
  /\ key_of (run 1 2024 3 4 5000 1800) = key_of (run 2 2024 3 10 0 600).
Proof.
  assert (Hv1 : valid_timestamp (mkTimestamp 2024 3 4 36000))
    by (vm_compute; repeat split; congruence).
  assert (Hv2 : valid_timestamp (mkTimestamp 2024 3 10 36000))
    by (vm_compute; repeat split; congruence).
  assert (Hw : week_index (mkTimestamp 2024 3 4 36000)
               = week_index (mkTimestamp 2024 3 10 36000)) by reflexivity.
  split; [exact Hv1|]. split; [exact Hv2|]. split; [reflexivity|].
  split; [exact Hw|].
  apply (same_key_same_week (run 1 2024 3 4 5000 1800)
           (run 2 2024 3 10 0 600) _ _ eq_refl eq_refl Hv1 Hv2
           eq_refl eq_refl).
  split; [reflexivity | exact Hw].
Defined.

End CalendarFacts.

(** ** The client, the console and the script *)

Section ClientFacts.

Import Calendar Training Client.
Local Open Scope string_scope.

Lemma fetch_loop_ext (fuel : nat) (a b : api) (start : option Timestamp) :
  (forall page, a per_page page = b per_page page) ->
  forall all page,
    fetch_loop fuel a start all page = fetch_loop fuel b start all page.
Proof.
  intros Hab. induction fuel as [|fuel IH]; intros all page; [reflexivity|].
  simpl. rewrite (loop_body_same a b) by apply Hab.
  destruct (loop_body b start all page); [apply IH | reflexivity].
Qed.

(** X14.  Through a client built on a token that is not empty, the
    analysis reaches the remote end only by GET requests to
    [https://www.strava.com/api/v3/athlete/activities] that carry the one
    header [Authorization: Bearer <token>] and the parameters
    [per_page = 100] and [page]: two remote ends that answer these
    requests alike give the same result. *)
Theorem analysis_requests :
  forall fuel token remote remote' start end_,
    token <> "" ->
    (forall page,
        remote (mkGet "https://www.strava.com/api/v3/athlete/activities"
                  {["Authorization" := "Bearer " +:+ token]}
                  [("per_page", 100); ("page", page)])
        = remote' (mkGet "https://www.strava.com/api/v3/athlete/activities"
                     {["Authorization" := "Bearer " +:+ token]}
                     [("per_page", 100); ("page", page)])) ->
    analyze_training_data fuel (as_api remote (init (Some token))) start end_
    = analyze_training_data fuel (as_api remote' (init (Some token)))
        start end_.
Proof.
  intros fuel token remote remote' start end_ Hne Hsame.
  unfold analyze_training_data.
  rewrite (fetch_loop_ext fuel (as_api remote (init (Some token)))
             (as_api remote' (init (Some token)))); [reflexivity|].
  intros page. unfold as_api, get_activities, init.
  cbn [base_url headers]. apply String.eqb_neq in Hne. rewrite Hne.
  apply Hsame.
Qed.

Lemma analysis_requests_witness :
  "a1b2" <> ""
  /\ analyze_training_data 2
       (as_api (fun r => match params r with
                         | [(_, 100); (_, 1)] => Page week10_feed
                         | _ => Page []
                         end) (init (Some "a1b2"))) None None
     = analyze_training_data 2
         (as_api (fun r => if startswith "https://www.strava.com/api/v3/athlete/"
                                (endpoint r)
                           then match params r with
                                | [(_, 100); (_, 1)] => Page week10_feed
                                | _ => Page []
                                end
                           else Failure) (init (Some "a1b2"))) None None.
Proof.
  assert (Hne : "a1b2" <> "") by discriminate.
  split; [exact Hne|].
  apply (analysis_requests 2 "a1b2" _ _ None None Hne).
  intros page. reflexivity.
Defined.

End ClientFacts.

Section ConsoleFacts.

Import Console.

(** X15.  [get_date_input] returns the first line typed that parses as a
    date, as it was typed; it complains once for each line rejected
    before it and leaves the lines after it unread.  When no line parses it
    ends in [EOFError], having complained about every line. *)
Theorem get_date_input_first_valid :
  forall parses typed,
    match get_date_input parses typed with
    | Returned date_str unread complaints =>
        exists rejected,
          typed = rejected ++ date_str :: unread
          /\ Forall (fun s => parses s = false) rejected
          /\ parses date_str = true
          /\ complaints = length rejected
    | EndOfInput complaints =>
        Forall (fun s => parses s = false) typed
        /\ complaints = length typed
    end.
Proof.
  intros parses typed. induction typed as [|s rest IH]; simpl.
  - split; [constructor | reflexivity].
  - destruct (parses s) eqn:Hs.
    + exists []. repeat split; auto.
    + destruct (get_date_input parses rest) as [d unread n|n].
      * destruct IH as (rejected & -> & Hrej & Hd & ->).
        exists (s :: rejected). repeat split; auto.
      * destruct IH as [Hrej ->]. split; [now constructor | reflexivity].
Qed.

End ConsoleFacts.

Section ScriptFacts.

Import Calendar Training Script.
Local Open Scope string_scope.

(** X16.  When the credentials cannot be read, the script exits with
    code 1 before anything else happens: no browser is opened, no request
    is served, posted or sent. *)
Theorem script_stops_without_credentials :
  forall fuel f token_endpoint incoming remote,
    (forall client_id client_secret,
        Credentials.get_credentials f
        <> Credentials.Return client_id client_secret) ->
    main fuel f token_endpoint incoming remote = Some (Exited 1, []).
Proof.
  intros fuel f token_endpoint incoming remote H. unfold main.
  destruct f as [| |lines]; simpl in *; try reflexivity.
  destruct (Credentials.parse_lines lines ∅) as [m|]; [|reflexivity].
  destruct (m !! "client_id") as [i|]; [|reflexivity].
  destruct (m !! "client_secret") as [s|]; [|reflexivity].
  now destruct (H i s).
Qed.

Lemma script_stops_without_credentials_witness :
  (forall client_id client_secret,
      Credentials.get_credentials Credentials.FileNotFound
      <> Credentials.Return client_id client_secret)
  /\ main 2 Credentials.FileNotFound (fun _ => None)
       [OAuth.callback_with_code] (fun _ => Failure)
     = Some (Exited 1, []).
Proof.
  assert (H : forall client_id client_secret,
             Credentials.get_credentials Credentials.FileNotFound
             <> Credentials.Return client_id client_secret)
    by (intros; discriminate).
  split; [exact H|].
  exact (script_stops_without_credentials 2 _ (fun _ => None)
           [OAuth.callback_with_code] (fun _ => Failure) H).
Defined.

End ScriptFacts.

(** ** The date range of the script *)

Section ScriptRange.

Import Calendar Training Notions.
Local Open Scope Z_scope.

(** Whatever the loop gathered came on a page. *)
Lemma fetched_from_pages (fuel : nat) (a : api) (start : option Timestamp) :
  forall all page f x,
    fetch_loop fuel a start all page = Some f ->
    In x (all_activities f) ->
    In x all \/ exists p activities,
                  a per_page p = Page activities /\ In x activities.
Proof.
  induction fuel as [|fuel IH]; intros all page f x H Hx; [discriminate|].
  simpl in H. pose proof (loop_body_cases a start all page) as Hb.
  unfold pass in Hb.
  destruct (loop_body a start all page) as [all' page'|all' [| |]].
  - destruct Hb as (acts & Hp & _ & _ & -> & ->).
    destruct (IH _ _ _ _ H Hx) as [Hin|Hin]; [|now right].
    apply in_app_or in Hin as [Hin|Hin]; [now left | right; eauto].
  - destruct Hb as [_ ->]. injection H as <-. now left.
  - destruct Hb as (acts & b & la & d & Hp & _ & _ & _ & _ & _ & ->).
    injection H as <-. simpl in Hx.
    apply in_app_or in Hx as [Hin|Hin]; [now left|].
    apply filter_In in Hin as [Hin _]. right; eauto.
  - destruct Hb as [_ ->]. injection H as <-. now left.
Qed.

Lemma days_before_year_step (y : Z) :
  days_before_year y < days_before_year (y + 1).
Proof.
  pose proof (year_length y). unfold leap_day in *.
  destruct (is_leap y); lia.
Qed.

Lemma days_before_year_mono (y y' : Z) :
  y <= y' -> days_before_year y <= days_before_year y'.
Proof.
  intros H. replace y' with (y + Z.of_nat (Z.to_nat (y' - y))) by lia.
  induction (Z.to_nat (y' - y)) as [|n IH]; [now rewrite Z.add_0_r|].
  rewrite Nat2Z.inj_succ.
  replace (y + Z.succ (Z.of_nat n)) with (y + Z.of_nat n + 1) by lia.
  pose proof (days_before_year_step (y + Z.of_nat n)). lia.
Qed.

Lemma ymd2ord_in_year (y m d : Z) :
  valid_date y m d ->
  days_before_year y < ymd2ord y m d <= days_before_year (y + 1).
Proof.
  intros Hv. pose proof (day_of_year_range y m d Hv).
  pose proof (year_length y). unfold ymd2ord. lia.
Qed.

(** A time stamp of the calendar inside the script's range belongs to
    2024 or 2025. *)
Lemma year_in_range (t : Timestamp) :
  valid_timestamp t ->
  ts_ord Script.start_date <= ts_ord t <= ts_ord Script.end_date ->
  ts_year t = 2024 \/ ts_year t = 2025.
Proof.
  intros [Hv Htime] [Hlo Hhi].
  pose proof (ymd2ord_in_year _ _ _ Hv) as Hord.
  unfold ts_ord in Hlo, Hhi.
  change (ymd2ord (ts_year Script.start_date) (ts_month Script.start_date)
            (ts_day Script.start_date)) with 739130 in Hlo.
  change (ymd2ord (ts_year Script.end_date) (ts_month Script.end_date)
            (ts_day Script.end_date)) with 739362 in Hhi.
  change (ts_time Script.start_date) with 0 in Hlo.
  change (ts_time Script.end_date) with 0 in Hhi.
  destruct (Z_le_gt_dec (ts_year t) 2023) as [Hy|Hy].
  - pose proof (days_before_year_mono (ts_year t + 1) 2024 ltac:(lia)) as Hm.
    change (days_before_year 2024) with 738885 in Hm. lia.
  - destruct (Z_le_gt_dec 2026 (ts_year t)) as [Hy'|Hy']; [|lia].
    pose proof (days_before_year_mono 2026 (ts_year t) Hy') as Hm.
    change (days_before_year 2026) with 739616 in Hm. lia.
Qed.

Lemma main_Report (fuel : nat) (f : Credentials.file)
    (token_endpoint : list (string * string) -> option OAuth.payload)
    (incoming : list OAuth.request)
    (remote : Client.get -> response)
    (ws : list WeeklyStat) (evs : list OAuth.event) :
  Script.main fuel f token_endpoint incoming remote
  = Some (Script.Report ws, evs) ->
  exists token,
    analyze_training_data fuel
      (Client.as_api remote (Client.init (Some token)))
      (Some Script.start_date) (Some Script.end_date) = Some (Analysed ws).
Proof.
  unfold Script.main.
  destruct (Credentials.get_credentials f) as [i s|c]; [|discriminate].
  destruct (OAuth.get_access_token i s token_endpoint incoming)
    as [[[[token_data|] unserved] evs']|]; try discriminate.
  destruct (Script.usable token_data) as [token|]; [|discriminate].
  destruct (analyze_training_data fuel _ _ _) as [[| | | |ws']|] eqn:E;
    try discriminate.
  intros [= <- _]. eauto.
Qed.

(** X17.  The script analyses 1 September 2024 to 21 April 2025: when
    the activities the service returns carry dates of the calendar, every
    row of the table the script reports has year 2024 or 2025 and is the
    aggregate of activities that start within that range. *)
Theorem script_report_range :
  forall fuel f token_endpoint incoming remote ws evs,
    (forall r activities a t,
        remote r = Page activities -> In a activities ->
        start_date a = Some t -> valid_timestamp t) ->
    Script.main fuel f token_endpoint incoming remote
    = Some (Script.Report ws, evs) ->
    forall b, In b ws ->
      (year b = 2024 \/ year b = 2025)
      /\ exists rows,
           rows <> []
           /\ b = weekly_stat ((year b, week b), rows)
           /\ Forall (fun a => exists t,
                          start_date a = Some t
                          /\ ts_ord Script.start_date <= ts_ord t <= ts_ord Script.end_date)
                     rows.
Proof.
  intros fuel f token_endpoint incoming remote ws evs Hvalid Hmain b Hin.
  apply main_Report in Hmain as (token & H).
  destruct (analyze_bucket _ _ _ _ _ _ H Hin) as (fd & Hf & Hb & Hne).
  cbv zeta in Hb, Hne.
  set (rows := rows_of (year b, week b)
                 (retained (Some Script.start_date) (Some Script.end_date)
                    (all_activities fd))) in *.
  assert (Hrows : forall a, In a rows ->
            exists t, start_date a = Some t
                      /\ ts_ord Script.start_date <= ts_ord t <= ts_ord Script.end_date
                      /\ valid_timestamp t /\ year b = ts_year t).
  { intros a Ha. unfold rows, rows_of in Ha.
    apply filter_In in Ha as [Ha Hk].
    apply retained_both in Ha as (Hall & t & Ht & Hrange).
    assert (Hv : valid_timestamp t).
    { destruct (fetched_from_pages _ _ _ _ _ _ _ Hf Hall)
        as [[]|(p & acts & Hp & Hacts)].
      unfold Client.as_api in Hp. exact (Hvalid _ _ _ _ Hp Hacts Ht). }
    assert (Hyear : year b = ts_year t).
    { unfold has_key, key_of in Hk. rewrite Ht in Hk.
      apply key_eqb_eq in Hk. now injection Hk as <- _. }
    exists t. tauto. }
  split.
  - destruct rows as [|a r]; [now destruct Hne|].
    destruct (Hrows a (or_introl eq_refl)) as (t & _ & Hrange & Hv & ->).
    now apply year_in_range.
  - exists rows. split; [exact Hne|]. split; [exact Hb|].
    apply List.Forall_forall. intros a Ha.
    destruct (Hrows a Ha) as (t & Ht & Hrange & _). eauto.
Qed.

Lemma script_report_range_witness :
  (forall r activities a t,
      Script.sample_remote r = Page activities -> In a activities ->
      start_date a = Some t -> valid_timestamp t)
  /\ exists evs,
       Script.main 2 Credentials.sample_file Script.granting_endpoint
         [OAuth.callback_with_code] Script.sample_remote
       = Some (Script.Report [weekly_stat ((2024, 40), Script.autumn_feed)],
               evs)
       /\ (year (weekly_stat ((2024, 40), Script.autumn_feed)) = 2024
           \/ year (weekly_stat ((2024, 40), Script.autumn_feed)) = 2025).
Proof.
  assert (Hv : forall r activities a t,
             Script.sample_remote r = Page activities -> In a activities ->
             start_date a = Some t -> valid_timestamp t).
  { intros r activities a t Hr Ha Ht. unfold Script.sample_remote in Hr.
    destruct (Script.asked_page r =? 1)%nat; injection Hr as <-;
      [|destruct Ha].
    destruct Ha as [<-|[<-|[]]]; injection Ht as <-;
      vm_compute; repeat split; congruence. }
  split; [exact Hv|]. eexists.
  assert (Hm : Script.main 2 Credentials.sample_file Script.granting_endpoint
                 [OAuth.callback_with_code] Script.sample_remote
               = Some (Script.Report
                         [weekly_stat ((2024, 40), Script.autumn_feed)], _))
    by (vm_compute; reflexivity).
  split; [exact Hm|].
  exact (proj1 (script_report_range _ _ _ _ _ _ _ Hv Hm _
                  (or_introl eq_refl))).
Defined.

End ScriptRange.

(** ** How the steps of the script compose *)

Section ScriptSteps.

Import Training.
Local Open Scope string_scope.




(** X19.  Without an access token the activities are never asked for:
    when no answer of the token endpoint holds an [access_token], the
    script ends the same way whatever the activity service would return,
    and it never reports a table. *)
Theorem script_needs_token :
  forall fuel fuel' f token_endpoint incoming remote remote',
    (forall data token_data,
        token_endpoint data = Some token_data ->
        token_data !! "access_token" = None) ->
    Script.main fuel f token_endpoint incoming remote
    = Script.main fuel' f token_endpoint incoming remote'
    /\ forall weekly_stats evs,
         Script.main fuel f token_endpoint incoming remote
         <> Some (Script.Report weekly_stats, evs).
Proof.
  intros fuel fuel' f token_endpoint incoming remote remote' Hno.
  assert (Huse : forall i s,
             match OAuth.get_access_token i s token_endpoint incoming with
             | Some (OAuth.Returned token_data, _, _) =>
                 Script.usable token_data = None
             | _ => True
             end).
  { intros i s. unfold OAuth.get_access_token.
    destruct (OAuth.handle_request incoming None) as [[[code rest] evs]|];
      [|exact I].
    destruct (OAuth.truthy code); [|reflexivity].
    destruct (token_endpoint _) as [token_data|] eqn:E; [|exact I].
    simpl. exact (Hno _ _ E). }
  unfold Script.main.
  destruct (Credentials.get_credentials f) as [i s|c];
    [|split; [reflexivity | discriminate]].
  specialize (Huse i s).
  destruct (OAuth.get_access_token i s token_endpoint incoming)
    as [[[[token_data|] unserved] evs']|];
    try (split; [reflexivity | discriminate]).
  rewrite Huse. split; [reflexivity | discriminate].
Qed.

Lemma script_needs_token_witness :
  (forall data token_data,
      (fun _ : list (string * string) =>
         Some ({["message" := "Bad Request"]} : OAuth.payload)) data
      = Some token_data ->
      token_data !! "access_token" = None)
  /\ Script.main 2 Credentials.sample_file
       (fun _ => Some {["message" := "Bad Request"]})
       [OAuth.callback_with_code] Script.sample_remote
     = Script.main 0 Credentials.sample_file
         (fun _ => Some {["message" := "Bad Request"]})
         [OAuth.callback_with_code] Script.failing_api_remote.
Proof.
  assert (H : forall data token_data,
             (fun _ : list (string * string) =>
                Some ({["message" := "Bad Request"]} : OAuth.payload)) data
             = Some token_data ->
             token_data !! "access_token" = None)
    by (intros data token_data [= <-]; reflexivity).
  split; [exact H|].
  exact (proj1 (script_needs_token 2 0 Credentials.sample_file _
                  [OAuth.callback_with_code] Script.sample_remote
                  Script.failing_api_remote H)).
Defined.

End ScriptSteps.


(** ** A service that fails part-way *)

Section PartialData.

Import Calendar Training Notions.

Lemma fetch_cut_off (k : nat) (feed : list Activity) (fuel : nat) :
  k <= ceil_div (length feed) per_page ->
  forall q,
    q <= k -> k < fuel + q ->
    fetch_loop fuel (cut_off k feed) None (firstn (q * per_page) feed) (S q)
    = Some (mkFetched (firstn (k * per_page) feed) (S k) FetchError).
Proof.
  intros Hk. pose proof (ceil_div_bounds (length feed)) as Hc.
  induction fuel as [|fuel IH]; intros q Hq Hfuel; [lia|].
  simpl fetch_loop.
  pose proof (loop_body_cases (cut_off k feed) None
                (firstn (q * per_page) feed) (S q)) as Hb.
  unfold pass in Hb.
  destruct (loop_body (cut_off k feed) None (firstn (q * per_page) feed) (S q))
    as [all' page'|all' [| |]].
  - destruct Hb as (acts & Hp & Hne & _ & -> & ->). unfold cut_off in Hp.
    destruct (Nat.leb_spec (S q) k) as [Hle|Hgt]; [|discriminate].
    rewrite paged_page in Hp. injection Hp as <-.
    rewrite take_take_drop.
    replace (q * per_page + per_page) with (S q * per_page) by lia.
    apply IH; lia.
  - destruct Hb as [Hp ->]. unfold cut_off in Hp.
    destruct (Nat.leb_spec (S q) k) as [Hle|Hgt]; [|discriminate].
    rewrite paged_page in Hp. injection Hp as Hp.
    apply page_empty in Hp. unfold per_page in *. lia.
  - destruct Hb as (? & ? & ? & ? & _ & _ & [=] & _).
  - destruct Hb as [Hp ->]. unfold cut_off in Hp.
    destruct (Nat.leb_spec (S q) k) as [Hle|Hgt];
      [rewrite paged_page in Hp; discriminate|].
    now replace q with k by lia.
Qed.

(** X20.  A request that fails does not end the analysis: when the
    service serves the first [k] pages of a feed and fails on the next
    request, and no start boundary is given, the loop stops on the failure
    with the activities of these [k] pages and the result is the analysis
    of them alone, as for a feed that ends there. *)
Theorem failure_leaves_partial_data :
  forall k feed fuel end_,
    k <= ceil_div (length feed) per_page ->
    k < fuel ->
    fetch_loop fuel (cut_off k feed) None [] 1
    = Some (mkFetched (firstn (k * per_page) feed) (S k) FetchError)
    /\ analyze_training_data fuel (cut_off k feed) None end_
       = Some (process None end_ (firstn (k * per_page) feed))
    /\ analyze_training_data fuel (cut_off k feed) None end_
       = analyze_training_data (S fuel)
           (paged (firstn (k * per_page) feed)) None end_.
Proof.
  intros k feed fuel end_ Hk Hfuel.
  assert (Hf : fetch_loop fuel (cut_off k feed) None [] 1
               = Some (mkFetched (firstn (k * per_page) feed) (S k)
                         FetchError))
    by (apply (fetch_cut_off k feed fuel Hk 0); lia).
  split; [exact Hf|].
  assert (Ha : analyze_training_data fuel (cut_off k feed) None end_
               = Some (process None end_ (firstn (k * per_page) feed)))
    by (unfold analyze_training_data; now rewrite Hf).
  split; [exact Ha|]. rewrite Ha. unfold analyze_training_data.
  assert (Hp : fetch_loop (S fuel) (paged (firstn (k * per_page) feed))
                 None [] 1
               = Some (mkFetched (firstn (k * per_page) feed)
                         (S (ceil_div (length (firstn (k * per_page) feed))
                               per_page)) EmptyPage)).
  { apply (fetch_paged_all (firstn (k * per_page) feed) (S fuel) 0); [lia|].
    pose proof (ceil_div_bounds (length (firstn (k * per_page) feed))) as Hb.
    rewrite length_firstn in *. unfold per_page in *. lia. }
  now rewrite Hp.
Qed.

Lemma failure_leaves_partial_data_witness :
  1 <= ceil_div (length old_feed) per_page
  /\ 1 < 2
  /\ analyze_training_data 2 (cut_off 1 old_feed) None None
     = Some (process None None (firstn (1 * per_page) old_feed)).
Proof.
  assert (Hk : 1 <= ceil_div (length old_feed) per_page)
    by (vm_compute; lia).
  assert (Hfuel : 1 < 2) by lia.
  split; [exact Hk|]. split; [exact Hfuel|].
  exact (proj1 (proj2 (failure_leaves_partial_data 1 old_feed 2 None
                         Hk Hfuel))).
Defined.

End PartialData.
